(** * control-tower: the BOSH lifecycle orchestrator and its state store

    A shallow embedding of [bosh/internal/boshcli/boshcli.go] (package
    [boshcli]) and of the GCP environment and S3-backed store (package
    [gcp]).  Go code that touches the operating system, the remote
    store or an external process is written in a small state monad over
    an explicit [World]; every [defer] is spelled out with [defer_]. *)

From Stdlib Require Import Strings.String Strings.Ascii Lists.List Bool.Bool Strings.Byte.
From stdpp Require Import gmap strings list fin_maps pretty.

Local Open Scope string_scope.
Local Open Scope list_scope.

(** ** Go values *)

(** [[]byte]. A nil slice and an empty slice are both [[]]: the code only
    ever asks for [len]. *)
Abbreviation bytes := (list byte).

#[global] Instance byte_eq_dec : EqDecision byte := Byte.byte_eq_dec.

(** [[]byte(s)] and [string(b)]. *)
Definition bytes_of (s : string) : bytes := list_byte_of_string s.
Definition string_of (b : bytes) : string := string_of_list_byte b.

(** The [error] interface.  [AwsError] stands for the values that satisfy
    the type assertion [err.(awserr.Error)]; [Code()] is its first field. *)
Inductive error : Type :=
  | PlainError (msg : string)
  | AwsError (code msg : string).

Definition error_msg (e : error) : string :=
  match e with
  | PlainError m => m
  | AwsError c m => c +:+ ": " +:+ m
  end.

#[global] Instance error_eq_dec : EqDecision error.
Proof. solve_decision. Defined.

(** The string of one line feed, Go's ["\n"]. *)
Definition LF : string := String (ascii_of_nat 10) EmptyString.

(** [strings.Join]. *)
Fixpoint strings_Join (elems : list string) (sep : string) : string :=
  match elems with
  | [] => ""
  | [s] => s
  | s :: rest => s +:+ sep +:+ strings_Join rest sep
  end.

(** [strings.Contains s substr]: some suffix of [s] starts with [substr]. *)
Fixpoint strings_Contains (s substr : string) : bool :=
  String.prefix substr s ||
  match s with
  | EmptyString => false
  | String _ s' => strings_Contains s' substr
  end.

(** [filepath.Join] on two clean elements: empty elements are ignored. *)
Definition filepath_Join (dir name : string) : string :=
  if decide (dir = "") then name else dir +:+ "/" +:+ name.

(** ** The local file system *)

Record FS : Type := mkFS {
  files : gmap string bytes;   (* regular files and their content *)
  dirs : gset string           (* directories *)
}.

Definition fs_exists (fs : FS) (p : string) : bool :=
  bool_decide (is_Some (files fs !! p)) || bool_decide (p ∈ dirs fs).

(** Whether directory [p] has an entry below it. *)
Definition fs_has_child (fs : FS) (p : string) : bool :=
  existsb (String.prefix (p +:+ "/"))
          (map fst (map_to_list (files fs)) ++ elements (dirs fs)).

(** ** Observable events

    The trace records the calls the claims speak about.  [EvScratch] marks
    a temporary file the orchestrator created, [EvHydrated k p] that
    [writeToDisk] handed out scratch path [p] for store key [k]. *)

Inductive ExecMode : Type := Blocking | Detached.

Inductive Event : Type :=
  | EvGet (key : string) (ok : bool)
  | EvSet (key : string) (value : bytes)
  | EvReadFile (path : string) (content : option bytes)
  | EvMkdir (path : string)
  | EvScratch (path : string)
  | EvHydrated (key path : string)
  | EvExec (mode : ExecMode) (argv : list string).

#[global] Instance ExecMode_eq_dec : EqDecision ExecMode.
Proof. solve_decision. Defined.

#[global] Instance Event_eq_dec : EqDecision Event.
Proof. solve_decision. Defined.

(** ** The world

    [w_store] is the state behind the [Store] interface, [w_faults] the
    outcomes the operating system will give to the next fallible system
    calls (an exhausted list means success), [w_stdout] what went to the
    orchestrator's own standard output, [w_sink] and [w_sink_faults] the
    caller's [io.Writer] and the outcomes of its next writes. *)

Record World (St : Type) : Type := mkWorld {
  w_fs : FS;
  w_tmp : nat;
  w_faults : list (option error);
  w_store : St;
  w_stdout : list bytes;
  w_sink : list bytes;
  w_sink_faults : list (option error)
}.

Arguments mkWorld {St}.
Arguments w_fs {St}.
Arguments w_tmp {St}.
Arguments w_faults {St}.
Arguments w_store {St}.
Arguments w_stdout {St}.
Arguments w_sink {St}.
Arguments w_sink_faults {St}.

Definition set_fs {St} (fs : FS) (w : World St) : World St :=
  mkWorld fs (w_tmp w) (w_faults w) (w_store w) (w_stdout w) (w_sink w)
          (w_sink_faults w).
Definition set_tmp {St} (n : nat) (w : World St) : World St :=
  mkWorld (w_fs w) n (w_faults w) (w_store w) (w_stdout w) (w_sink w)
          (w_sink_faults w).
Definition set_faults {St} (fl : list (option error)) (w : World St)
  : World St :=
  mkWorld (w_fs w) (w_tmp w) fl (w_store w) (w_stdout w) (w_sink w)
          (w_sink_faults w).
Definition set_store {St} (st : St) (w : World St) : World St :=
  mkWorld (w_fs w) (w_tmp w) (w_faults w) st (w_stdout w) (w_sink w)
          (w_sink_faults w).
Definition set_stdout {St} (out : list bytes) (w : World St) : World St :=
  mkWorld (w_fs w) (w_tmp w) (w_faults w) (w_store w) out (w_sink w)
          (w_sink_faults w).
Definition set_sink {St} (sink : list bytes) (fl : list (option error))
    (w : World St) : World St :=
  mkWorld (w_fs w) (w_tmp w) (w_faults w) (w_store w) (w_stdout w) sink fl.

(** ** A state monad over the world that also writes the trace *)

Definition M (St A : Type) : Type := World St → A * World St * list Event.

Definition ret {St A} (a : A) : M St A := λ w, (a, w, []).

Definition bind {St A B} (m : M St A) (k : A → M St B) : M St B :=
  λ w, let '(a, w1, l1) := m w in
       let '(b, w2, l2) := k a w1 in
       (b, w2, l1 ++ l2).

(** What a computation returns, the world it leaves and the events of the
    call, from a given world. *)
Definition result {St A} (m : M St A) (w : World St) : A := (m w).1.1.
Definition final {St A} (m : M St A) (w : World St) : World St := (m w).1.2.
Definition events {St A} (m : M St A) (w : World St) : list Event := (m w).2.

Declare Scope go_scope.
Delimit Scope go_scope with go.

Notation "'let*' x ':=' m 'in' k" := (bind m (λ x, k))
  (at level 10, x name, m at level 100, k at level 200, only parsing)
  : go_scope.
Notation "'let*' ' p ':=' m 'in' k" := (bind m (λ x, let 'p := x in k))
  (at level 10, p pattern, m at level 100, k at level 200, only parsing)
  : go_scope.

(** [if err != nil { return err }] in a function that returns one [error]. *)
Notation "'check' err 'in' k" :=
  (match err with Some e => ret (Some e) | None => k end)
  (at level 10, err at level 100, k at level 200, only parsing) : go_scope.

(** [defer d()] followed by [body]: the deferred call runs when the body
    has returned, and what it returns is dropped. *)
Definition defer_ {St A B} (d : M St B) (body : M St A) : M St A :=
  λ w, let '(r, w1, l1) := body w in
       let '(_, w2, l2) := d w1 in
       (r, w2, l1 ++ l2).

Definition emit {St} (e : Event) : M St unit := λ w, (tt, w, [e]).

Definition gets {St A} (f : World St → A) : M St A := λ w, (f w, w, []).

Definition modify {St} (f : World St → World St) : M St unit :=
  λ w, (tt, f w, []).

Definition get_fs {St} : M St FS := gets w_fs.

Definition put_fs {St} (fs : FS) : M St unit := modify (set_fs fs).

Definition with_fs {St} (f : FS → FS) : M St unit :=
  modify (λ w, set_fs (f (w_fs w)) w).

(** The outcome of the next fallible system call. *)
Definition os_fault {St} : M St (option error) :=
  λ w, match w_faults w with
       | [] => (None, w, [])
       | f :: rest => (f, set_faults rest w, [])
       end.

(** ** Operating-system calls used by the orchestrator *)

Section OS.
Context {St : Type}.
Local Open Scope go_scope.

(** Names handed out by [ioutil.TempFile("", "")] and
    [ioutil.TempDir("", "")]: the temporary directory and a number. *)
Definition tmp_name (n : nat) : string := "/tmp/" +:+ pretty n.

(** Both give up after this many names that already exist. *)
Definition tmp_retries : nat := 100 * 100.

Fixpoint tmp_pick (fs : FS) (tries n : nat) : option nat :=
  match tries with
  | 0 => None
  | S t =>
      if fs_exists fs (tmp_name n) then tmp_pick fs t (S n)
      else Some n
  end.

Definition ErrExist : error := PlainError "file exists".
Definition ErrNotExist : error := PlainError "no such file or directory".
Definition ErrNotEmpty : error := PlainError "directory not empty".

Definition fs_create (p : string) (fs : FS) : FS :=
  mkFS (<[p := []]> (files fs)) (dirs fs).
Definition fs_write (p : string) (data : bytes) (fs : FS) : FS :=
  mkFS (<[p := data]> (files fs)) (dirs fs).
Definition fs_mkdir (p : string) (fs : FS) : FS :=
  mkFS (files fs) ({[p]} ∪ dirs fs).
Definition fs_unlink (p : string) (fs : FS) : FS :=
  mkFS (delete p (files fs)) (dirs fs).
Definition fs_rmdir (p : string) (fs : FS) : FS :=
  mkFS (files fs) (dirs fs ∖ {[p]}).

(** [ioutil.TempFile("", "")]: the name of a new, empty file. *)
Definition ioutil_TempFile : M St (string * option error) :=
  let* f := os_fault in
  match f with
  | Some e => ret ("", Some e)
  | None =>
      let* fs := get_fs in
      let* next := gets w_tmp in
      match tmp_pick fs tmp_retries next with
      | None =>
          let* _ := modify (set_tmp (next + tmp_retries)) in
          ret ("", Some ErrExist)
      | Some n =>
          let* _ := modify (set_tmp (S n)) in
          let* _ := with_fs (fs_create (tmp_name n)) in
          ret (tmp_name n, None)
      end
  end.

(** [ioutil.TempDir("", "")]: the name of a new directory. *)
Definition ioutil_TempDir : M St (string * option error) :=
  let* f := os_fault in
  match f with
  | Some e => ret ("", Some e)
  | None =>
      let* fs := get_fs in
      let* next := gets w_tmp in
      match tmp_pick fs tmp_retries next with
      | None =>
          let* _ := modify (set_tmp (next + tmp_retries)) in
          ret ("", Some ErrExist)
      | Some n =>
          let* _ := modify (set_tmp (S n)) in
          let* _ := with_fs (fs_mkdir (tmp_name n)) in
          let* _ := emit (EvMkdir (tmp_name n)) in
          ret (tmp_name n, None)
      end
  end.

(** [f.Write(data)] on the file just created under [name]; a failed
    write leaves the file as it was. *)
Definition file_Write (name : string) (data : bytes) : M St (option error) :=
  let* f := os_fault in
  match f with
  | Some e => ret (Some e)
  | None => let* _ := with_fs (fs_write name data) in ret None
  end.

(** [f.Close()]. *)
Definition file_Close (name : string) : M St (option error) := os_fault.

(** [os.Remove]: unlink a file, or remove an empty directory. *)
Definition os_Remove (name : string) : M St (option error) :=
  let* fs := get_fs in
  if bool_decide (is_Some (files fs !! name)) then
    let* _ := with_fs (fs_unlink name) in ret None
  else if bool_decide (name ∈ dirs fs) then
    if fs_has_child fs name then ret (Some ErrNotEmpty)
    else let* _ := with_fs (fs_rmdir name) in ret None
  else ret (Some ErrNotExist).

(** [ioutil.ReadFile]. *)
Definition ioutil_ReadFile (path : string) : M St (bytes * option error) :=
  let* fs := get_fs in
  let* _ := emit (EvReadFile path (files fs !! path)) in
  match files fs !! path with
  | Some data => ret (data, None)
  | None => ret ([], Some ErrNotExist)
  end.

(** [os.Stdout] of the orchestrator's own process. *)
Definition os_Stdout_Write (b : bytes) : M St unit :=
  modify (λ w, set_stdout (w_stdout w ++ [b]) w).

(** [stdout.Write] on the caller's [io.Writer]. *)
Definition sink_Write (b : bytes) : M St (option error) :=
  λ w, match w_sink_faults w with
       | Some e :: rest => (Some e, set_sink (w_sink w) rest w, [])
       | None :: rest => (None, set_sink (w_sink w ++ [b]) rest w, [])
       | [] => (None, set_sink (w_sink w ++ [b]) [] w, [])
       end.
End OS.

(** ** Package [boshcli] *)

(** What an external process does when it is started on a file system:
    whether it starts at all, the lines it prints on its standard output
    (as [bufio.Scanner] hands them out, one token per line), the file
    system it leaves behind and its exit status. *)
Record ProcResult : Type := mkProc {
  pr_start : option error;
  pr_stdout : list string;
  pr_fs : FS;
  pr_exit : option error
}.

(** [*exec.Cmd]: the argument vector and the behaviour behind it. *)
Record Cmd : Type := mkCmd {
  cmd_args : list string;
  cmd_proc : FS → ProcResult
}.

(** Where [cmd.Stdout] points. *)
Inductive Stdout : Type := ToOsStdout | ToWriter | ToBuffer.

(** [resource.Resource], as far as [xEnv] reads it. *)
Record Resource : Type := mkResource {
  URL : string;
  Version : string;
  SHA1 : string
}.

Inductive ResourceID : Type := BOSHRelease | BPMRelease.

(** The values of [map[string]interface{}] that [xEnv] builds. *)
Inductive Value : Type :=
  | VString (s : string)
  | VTags (tags : gmap string string).

Module boshcli.
Section Boshcli.
Context {St : Type}.
Local Open Scope go_scope.

(** [type CLI struct]. *)
Record CLI : Type := mkCLI {
  execCmd : string → list string → FS → ProcResult;
  boshPath : string
}.

(** [type IAASEnvironment interface]; the methods may read the local
    file system (the GCP one reads a credentials file). *)
Record IAASEnvironment : Type := mkIAASEnvironment {
  ConfigureDirectorManifestCPI : FS → string * option error;
  ConfigureDirectorCloudConfig : FS → string * option error;
  ConfigureConcourseStemcell : FS → string * option error
  (* IAASCheck() iaas.Name is never called in this package *)
}.

(** [type Store interface], over the store's own state. *)
Record Store : Type := mkStore {
  StoreSet : string → bytes → St → option error * St;
  StoreGet : string → St → (bytes * option error) * St
}.

(** [store.Get(key)]. *)
Definition store_Get (store : Store) (key : string)
  : M St (bytes * option error) :=
  let* st := gets w_store in
  let '(data, err, st) := StoreGet store key st in
  let* _ := modify (set_store st) in
  let* _ := emit (EvGet key (bool_decide (err = None))) in
  ret (data, err).

(** [store.Set(key, value)]. *)
Definition store_Set (store : Store) (key : string) (value : bytes)
  : M St (option error) :=
  let* _ := emit (EvSet key value) in
  let* st := gets w_store in
  let '(err, st) := StoreSet store key value st in
  let* _ := modify (set_store st) in
  ret err.

Definition call_config (method : FS → string * option error)
  : M St (string * option error) :=
  let* fs := get_fs in ret (method fs).

(** [c.execCmd(c.boshPath, args...)], to be driven in [mode]. *)
Definition command (c : CLI) (mode : ExecMode) (args : list string)
  : M St Cmd :=
  let* _ := emit (EvExec mode (boshPath c :: args)) in
  ret (mkCmd (boshPath c :: args) (execCmd c (boshPath c) args)).

(** What the process wrote, as one block of bytes. *)
Definition raw_output (lines : list string) : bytes :=
  bytes_of (String.concat "" (map (λ l, l +:+ LF) lines)).

(** [cmd.Run()]: start the process, copy its standard output to where
    [cmd.Stdout] points, wait for it.  The captured bytes are returned
    for [ToBuffer]. *)
Definition cmd_Run (cmd : Cmd) (out : Stdout) : M St (bytes * option error) :=
  let* fs := get_fs in
  let r := cmd_proc cmd fs in
  match pr_start r with
  | Some e => ret ([], Some e)
  | None =>
      let* _ := put_fs (pr_fs r) in
      let data := raw_output (pr_stdout r) in
      match out with
      | ToOsStdout =>
          let* _ := os_Stdout_Write data in ret ([], pr_exit r)
      | ToBuffer => ret (data, pr_exit r)
      | ToWriter =>
          let* werr := (match data with
                        | [] => ret None
                        | _ => sink_Write data
                        end) in
          ret ([], match pr_exit r with Some e => Some e | None => werr end)
      end
  end.

(** [func writeTempFile(data []byte) (string, error)]. *)
Definition writeTempFile (data : bytes) : M St (string * option error) :=
  let* '(name, err) := ioutil_TempFile in
  match err with
  | Some e => ret ("", Some e)
  | None =>
      let* _ := emit (EvScratch name) in
      let* err := file_Write name data in
      let* err1 := file_Close name in
      let err := match err with None => err1 | Some _ => err end in
      match err with
      | Some _ => let* _ := os_Remove name in ret (name, err)
      | None => ret (name, err)
      end
  end.

(** The closure [upload] that [writeToDisk] returns. *)
Definition upload (store : Store) (key path : string) : M St (option error) :=
  defer_ (os_Remove path)
    (let* '(data, err) := ioutil_ReadFile path in
     check err in
     store_Set store key data).

(** The nil [func() error]. *)
Definition nil_upload : M St (option error) := ret None.

(** [func writeToDisk(store Store, key string)
      (filename string, upload func() error, err error)]. *)
Definition writeToDisk (store : Store) (key : string)
  : M St (string * M St (option error) * option error) :=
  let* '(data, err) := store_Get store key in
  match err with
  | Some e => ret ("", nil_upload, Some e)
  | None =>
      let* '(path, err) :=
        (match data with
         | [] =>
             let* '(path, err) := ioutil_TempDir in
             ret (filepath_Join path key, err)
         | _ => writeTempFile data
         end) in
      match err with
      | Some e => ret ("", nil_upload, Some e)
      | None =>
          let* _ := emit (EvHydrated key path) in
          ret (path, upload store key path, None)
      end
  end.

(** [yaml.Interpolate] and [resource.Get] live in packages of their own;
    the orchestrator is verified for any behaviour of theirs. *)
Variable yaml_Interpolate :
  string → string → gmap string Value → string * option error.
Variable resource_Get : ResourceID → Resource.

Definition stateFilename : string := "state.json".
Definition varsFilename : string := "vars.yaml".

(** The map literal [vars] of [xEnv]. *)
Definition xEnv_vars (password cert key ca : string)
    (tags : gmap string string) : gmap string Value :=
  let boshResource := resource_Get BOSHRelease in
  let bpmResource := resource_Get BPMRelease in
  <["director_name" := VString "bosh"]> (
  <["admin_password" := VString password]> (
  <["director_ssl.certificate" := VString cert]> (
  <["director_ssl.private_key" := VString key]> (
  <["director_ssl.ca" := VString ca]> (
  <["bosh_url" := VString (URL boshResource)]> (
  <["bosh_version" := VString (Version boshResource)]> (
  <["bosh_sha1" := VString (SHA1 boshResource)]> (
  <["bpm_url" := VString (URL bpmResource)]> (
  <["bpm_version" := VString (Version bpmResource)]> (
  <["bpm_sha1" := VString (SHA1 bpmResource)]> (
  <["tags" := VTags tags]> ∅))))))))))).

(** [func (c *CLI) xEnv(action string, store Store, config
    IAASEnvironment, password, cert, key, ca string,
    tags map[string]string) error]. *)
Definition xEnv (c : CLI) (action : string) (store : Store)
    (config : IAASEnvironment) (password cert key ca : string)
    (tags : gmap string string) : M St (option error) :=
  let* '(manifest, err) :=
    call_config (ConfigureDirectorManifestCPI config) in
  check err in
  let vars := xEnv_vars password cert key ca tags in
  let '(manifest, err) := yaml_Interpolate manifest "" vars in
  check err in
  let* '(statePath, uploadState, err) := writeToDisk store stateFilename in
  check err in
  defer_ uploadState (
  let* '(varsPath, uploadVars, err) := writeToDisk store varsFilename in
  check err in
  defer_ uploadVars (
  let* '(manifestPath, err) := writeTempFile (bytes_of manifest) in
  check err in
  defer_ (os_Remove manifestPath) (
  let* cmd := command c Blocking
                [action; "--state=" +:+ statePath;
                 "--vars-store=" +:+ varsPath; manifestPath] in
  let* '(_, err) := cmd_Run cmd ToOsStdout in
  ret err))).

(** [func (c *CLI) UpdateCloudConfig]. *)
Definition UpdateCloudConfig (c : CLI) (config : IAASEnvironment)
    (ip password ca : string) : M St (option error) :=
  let* '(cloudConfig, err) :=
    call_config (ConfigureDirectorCloudConfig config) in
  check err in
  let* '(cloudConfigPath, err) := writeTempFile (bytes_of cloudConfig) in
  check err in
  defer_ (os_Remove cloudConfigPath) (
  let* '(caPath, err) := writeTempFile (bytes_of ca) in
  check err in
  defer_ (os_Remove caPath) (
  let ip := "https://" +:+ ip in
  let* cmd := command c Blocking
                ["--non-interactive"; "--environment"; ip; "--ca-cert";
                 caPath; "--client"; "admin"; "--client-secret"; password;
                 "update-cloud-config"; cloudConfigPath] in
  let* '(_, err) := cmd_Run cmd ToOsStdout in
  ret err)).

(** [func (c *CLI) Locks]. *)
Definition Locks (c : CLI) (config : IAASEnvironment)
    (ip password ca : string) : M St (bytes * option error) :=
  let* '(caPath, err) := writeTempFile (bytes_of ca) in
  match err with
  | Some e => ret ([], Some e)
  | None =>
      defer_ (os_Remove caPath) (
      let* cmd := command c Blocking
                    ["--environment"; ip; "--ca-cert"; caPath; "--client";
                     "admin"; "--client-secret"; password; "locks";
                     "--json"] in
      let* '(out, err) := cmd_Run cmd ToBuffer in
      match err with
      | Some e => ret ([], Some e)
      | None => ret (out, None)
      end)
  end.

(** [func (c *CLI) UploadConcourseStemcell]. *)
Definition UploadConcourseStemcell (c : CLI) (config : IAASEnvironment)
    (ip password ca : string) : M St (option error) :=
  let* '(stemcell, err) :=
    call_config (ConfigureConcourseStemcell config) in
  check err in
  let* '(caPath, err) := writeTempFile (bytes_of ca) in
  check err in
  defer_ (os_Remove caPath) (
  let ip := "https://" +:+ ip in
  let* cmd := command c Blocking
                ["--non-interactive"; "--environment"; ip; "--ca-cert";
                 caPath; "--client"; "admin"; "--client-secret"; password;
                 "upload-stemcell"; stemcell] in
  let* '(_, err) := cmd_Run cmd ToOsStdout in
  ret err).

(** [func (c *CLI) Recreate]. *)
Definition Recreate (c : CLI) (config : IAASEnvironment)
    (ip password ca : string) : M St (option error) :=
  let* '(caPath, err) := writeTempFile (bytes_of ca) in
  check err in
  defer_ (os_Remove caPath) (
  let ip := "https://" +:+ ip in
  let* cmd := command c Blocking
                ["--non-interactive"; "--environment"; ip; "--ca-cert";
                 caPath; "--client"; "admin"; "--client-secret"; password;
                 "--deployment"; "concourse"; "recreate"] in
  let* '(_, err) := cmd_Run cmd ToOsStdout in
  ret err).

(** [func (c *CLI) DeleteEnv]. *)
Definition DeleteEnv (c : CLI) (store : Store) (config : IAASEnvironment)
    (password cert key ca : string) (tags : gmap string string)
  : M St (option error) :=
  xEnv c "delete-env" store config password cert key ca tags.

(** [func (c *CLI) CreateEnv]. *)
Definition CreateEnv (c : CLI) (store : Store) (config : IAASEnvironment)
    (password cert key ca : string) (tags : gmap string string)
  : M St (option error) :=
  xEnv c "create-env" store config password cert key ca tags.

(** The caller's [stdout io.Writer] is the sink of the world. *)

(** [func (c *CLI) boshCommand(stdout io.Writer, flags ...string) error]. *)
Definition boshCommand (c : CLI) (flags : list string)
  : M St (option error) :=
  let* cmd := command c Blocking flags in
  let* '(_, err) := cmd_Run cmd ToWriter in
  ret err.

Definition detachMarker : string := "Preparing deployment".

Definition errNoTaskStart (flags : list string) : error :=
  PlainError
    ("Didn't detect successful task start in BOSH comand: bosh-cli "
     +:+ strings_Join flags " ").

(** The [for scanner.Scan() { ... }] loop of [detachedBoshCommand] and
    the [return] after it, over the tokens still to come. *)
Fixpoint detachedScan (flags : list string) (tokens : list string)
  : M St (option error) :=
  match tokens with
  | [] => ret (Some (errNoTaskStart flags))
  | text :: rest =>
      let* err := sink_Write (bytes_of (text +:+ LF)) in
      check err in
      if strings_Contains text detachMarker then
        let* _ := sink_Write (bytes_of ("Task started, detaching output" +:+ LF)) in
        ret None
      else detachedScan flags rest
  end.

(** [func (c *CLI) detachedBoshCommand(stdout io.Writer,
    flags ...string) error].  The process is never waited for: neither
    its exit status nor what it does to the file system after the
    function has returned is looked at. *)
Definition detachedBoshCommand (c : CLI) (flags : list string)
  : M St (option error) :=
  let* cmd := command c Detached flags in
  let* err := os_fault in                     (* cmd.StdoutPipe() *)
  check err in
  let* fs := get_fs in
  let r := cmd_proc cmd fs in
  check (pr_start r) in                       (* cmd.Start() *)
  detachedScan flags (pr_stdout r).

(** [func (c *CLI) RunAuthenticatedCommand(action, ip, password,
    ca string, detach bool, stdout io.Writer, flags ...string) error]. *)
Definition RunAuthenticatedCommand (c : CLI) (action ip password ca : string)
    (detach : bool) (flags : list string) : M St (option error) :=
  let* '(caPath, err) := writeTempFile (bytes_of ca) in
  check err in
  defer_ (os_Remove caPath) (
  let ip := "https://" +:+ ip in
  let authFlags :=
    ["--non-interactive"; "--environment"; ip; "--ca-cert"; caPath;
     "--client"; "admin"; "--client-secret"; password; "--deployment";
     "concourse"; action] in
  let flags := authFlags ++ flags in
  if detach && bool_decide (action = "deploy") then
    detachedBoshCommand c flags
  else boshCommand c flags).
(** [exec.Command] and [resource.BOSHCLIPath()] come from outside the
    package. *)
Variable exec_Command : string → list string → FS → ProcResult.
Variable resource_BOSHCLIPath : string * option error.

(** [type Option], a function that is given the [CLI] under construction
    and returns an [error]: what the option makes of the [CLI], and its
    error. *)
Definition Option : Type := CLI → CLI * option error.

(** [func BOSHPath(path string) Option]. *)
Definition BOSHPath (path : string) : Option :=
  λ c, (mkCLI (execCmd c) path, None).

(** [func DownloadBOSH() Option]: the path is stored before the error is
    looked at. *)
Definition DownloadBOSH : Option :=
  λ c, let '(path, err) := resource_BOSHCLIPath in
       (mkCLI (execCmd c) path, err).

(** The [for _, op := range ops] loop of [New] and the [return] after
    it. *)
Fixpoint applyOptions (ops : list Option) (c : CLI)
  : option CLI * option error :=
  match ops with
  | [] => (Some c, None)
  | op :: rest =>
      let '(c, err) := op c in
      match err with
      | Some e => (None, Some e)
      | None => applyOptions rest c
      end
  end.

(** [func New(ops ...Option) (ICLI, error)]. *)
Definition New (ops : list Option) : option CLI * option error :=
  applyOptions ops (mkCLI exec_Command "bosh").
End Boshcli.
End boshcli.

(** ** Package [gcp]: the environment's stemcell and the S3-backed store *)

(** The values of a variable map, under a name that the fields of package
    [gcp] do not hide. *)
Abbreviation VarValue := Value.

Module gcp.

(** [type Environment struct]. *)
Record Environment : Type := mkEnvironment {
  CustomOperations : string;
  DirectorName : string;
  ExternalIP : string;
  GcpCredentialsJSON : string;
  InternalCIDR : string;
  InternalGW : string;
  InternalIP : string;
  Network : string;
  PrivateCIDR : string;
  PrivateCIDRGateway : string;
  PrivateCIDRReserved : string;
  PrivateSubnetwork : string;
  ProjectID : string;
  PublicCIDR : string;
  PublicCIDRGateway : string;
  PublicCIDRReserved : string;
  PublicCIDRStatic : string;
  PublicKey : string;
  PublicSubnetwork : string;
  Spot : bool;
  Tags : string;
  Zone : string
}.

(** The anonymous [struct { Path string; Value json.RawMessage }]. *)
Record Op : Type := mkOp {
  Path : string;
  Value : bytes
}.

Definition stemcellVersionPath : string := "/stemcells/alias=xenial/version".

Definition errNoStemcell : error :=
  PlainError "did not find stemcell version in versions.json".

(** [fmt.Sprintf] of the URL template at [version, version]. *)
Definition stemcellURL (version : string) : string :=
  "https://s3.amazonaws.com/bosh-gce-light-stemcells/" +:+ version
  +:+ "/light-bosh-stemcell-" +:+ version
  +:+ "-google-kvm-ubuntu-xenial-go_agent.tgz".

Section Stemcell.
(** [resource.GCPReleaseVersions] and [json.Unmarshal] at the two
    types the function decodes to.  Decoding into [&version] gets the
    variable's current value and gives its new one. *)
Variable GCPReleaseVersions : string.
Variable json_Unmarshal_ops : bytes → list Op * option error.
Variable json_Unmarshal_string : bytes → string → string * option error.

(** The [for _, op := range ops] loop; an error leaves it at once. *)
Fixpoint versionLoop (ops : list Op) (version : string)
  : string * option error :=
  match ops with
  | [] => (version, None)
  | op :: rest =>
      if bool_decide (Path op ≠ stemcellVersionPath) then
        versionLoop rest version
      else
        let '(version, err) := json_Unmarshal_string (Value op) version in
        match err with
        | Some e => (version, Some e)
        | None => versionLoop rest version
        end
  end.

(** [func (e Environment) ConfigureConcourseStemcell() (string, error)]. *)
Definition ConfigureConcourseStemcell (e : Environment)
  : string * option error :=
  let '(ops, err) := json_Unmarshal_ops (bytes_of GCPReleaseVersions) in
  match err with
  | Some e => ("", Some e)
  | None =>
      let '(version, err) := versionLoop ops "" in
      match err with
      | Some e => ("", Some e)
      | None =>
          if bool_decide (version = "") then ("", Some errNoStemcell)
          else (stemcellURL version, None)
      end
  end.
End Stemcell.

(** [*s3.GetObjectOutput], as far as [Get] reads it: what
    [ioutil.ReadAll(result.Body)] will give, the bytes read and the
    error that stopped the read, if any. *)
Record GetObjectOutput : Type := mkGetObjectOutput {
  body_data : bytes;
  body_err : option error
}.

Definition ioutil_ReadAll (r : GetObjectOutput) : bytes * option error :=
  (body_data r, body_err r).

Section S3.
(** The state of the object store behind [s3iface.S3API]. *)
Context {T : Type}.

(** [s3iface.S3API], the two calls in use; the arguments are
    [Bucket] and [Key], and [Body] for a put. *)
Record S3API : Type := mkS3API {
  GetObject : string → string → T → (GetObjectOutput * option error) * T;
  PutObject : string → string → bytes → T → option error * T
}.

(** [type Store struct]. *)
Record Store : Type := NewStore {
  s3 : S3API;
  bucket : string
}.

Definition ErrCodeNoSuchKey : string := "NoSuchKey".

(** [awsErr, ok := err.(awserr.Error); ok &&
    awsErr.Code() == s3.ErrCodeNoSuchKey]. *)
Definition isNoSuchKey (err : option error) : bool :=
  match err with
  | Some (AwsError code _) => bool_decide (code = ErrCodeNoSuchKey)
  | _ => false
  end.

(** [func (s *Store) Get(key string) ([]byte, error)]. *)
Definition Get (s : Store) (key : string) (st : T)
  : (bytes * option error) * T :=
  let '(result, err, st) := GetObject (s3 s) (bucket s) key st in
  if isNoSuchKey err then (([], None), st)
  else match err with
       | Some e => (([], Some e), st)
       | None => (ioutil_ReadAll result, st)
       end.

(** [func (s *Store) Set(key string, value []byte) error]. *)
Definition Set_ (s : Store) (key : string) (value : bytes) (st : T)
  : option error * T :=
  PutObject (s3 s) (bucket s) key value st.

(** A [*gcp.Store] is a [boshcli.Store]. *)
Definition asStore (s : Store) : @boshcli.Store T :=
  boshcli.mkStore (Set_ s) (Get s).
End S3.

(** [type gcpCloudConfigParams struct]. *)
Record gcpCloudConfigParams : Type := mkGcpCloudConfigParams {
  cc_Zone : string;
  cc_Spot : bool;
  cc_PublicSubnetwork : string;
  cc_PrivateSubnetwork : string;
  cc_Network : string;
  cc_PublicCIDR : string;
  cc_PublicCIDRGateway : string;
  cc_PublicCIDRStatic : string;
  cc_PublicCIDRReserved : string;
  cc_PrivateCIDR : string;
  cc_PrivateCIDRGateway : string;
  cc_PrivateCIDRReserved : string
}.

Section Director.
(** The templates and ops files of package [resource], [yaml.Interpolate]
    and [util.RenderTemplate] (which may give a nil slice). *)
Variable DirectorManifest : string.
Variable GCPCPIOps : string.
Variable GCPExternalIPOps : string.
Variable GCPDirectorCustomOps : string.
Variable GCPJumpboxUserOps : string.
Variable GCPDirectorCloudConfig : string.
Variable yaml_Interpolate :
  string → string → gmap string VarValue → string * option error.
Variable util_RenderTemplate :
  string → string → gcpCloudConfigParams → option bytes * option error.

(** [var allOperations]. *)
Definition allOperations : string :=
  GCPCPIOps +:+ GCPExternalIPOps +:+ GCPDirectorCustomOps
  +:+ GCPJumpboxUserOps.

(** The map literal of [ConfigureDirectorManifestCPI]. *)
Definition manifestVars (e : Environment) (gcpCreds : bytes)
  : gmap string VarValue :=
  <["internal_cidr" := VString (InternalCIDR e)]> (
  <["internal_gw" := VString (InternalGW e)]> (
  <["internal_ip" := VString (InternalIP e)]> (
  <["director_name" := VString (DirectorName e)]> (
  <["zone" := VString (Zone e)]> (
  <["network" := VString (Network e)]> (
  <["subnetwork" := VString (PublicSubnetwork e)]> (
  <["private_subnetwork" := VString (PrivateSubnetwork e)]> (
  <["project_id" := VString (ProjectID e)]> (
  <["gcp_credentials_json" := VString (string_of gcpCreds)]> (
  <["external_ip" := VString (ExternalIP e)]> (
  <["public_key" := VString (PublicKey e)]> ∅))))))))))).

(** [func (e Environment) ConfigureDirectorManifestCPI() (string, error)],
    on the file system it reads the credentials from. *)
Definition ConfigureDirectorManifestCPI (e : Environment) (fs : FS)
  : string * option error :=
  match files fs !! GcpCredentialsJSON e with
  | None => ("", Some ErrNotExist)
  | Some gcpCreds =>
      yaml_Interpolate DirectorManifest (allOperations +:+ CustomOperations e)
        (manifestVars e gcpCreds)
  end.

(** [func (e Environment) ConfigureDirectorCloudConfig() (string, error)]. *)
Definition ConfigureDirectorCloudConfig (e : Environment)
  : string * option error :=
  let templateParams :=
    {| cc_Zone := Zone e;
       cc_PublicSubnetwork := PublicSubnetwork e;
       cc_PrivateSubnetwork := PrivateSubnetwork e;
       cc_Spot := Spot e;
       cc_Network := Network e;
       cc_PublicCIDR := PublicCIDR e;
       cc_PublicCIDRGateway := PublicCIDRGateway e;
       cc_PublicCIDRStatic := PublicCIDRStatic e;
       cc_PublicCIDRReserved := PublicCIDRReserved e;
       cc_PrivateCIDR := PrivateCIDR e;
       cc_PrivateCIDRGateway := PrivateCIDRGateway e;
       cc_PrivateCIDRReserved := PrivateCIDRReserved e |} in
  let '(cc, err) :=
    util_RenderTemplate "cloud-config" GCPDirectorCloudConfig
      templateParams in
  match cc with
  | None => ("", err)
  | Some cc => (string_of cc, err)
  end.

(** The pinned versions and the decoders of [ConfigureConcourseStemcell]. *)
Variable GCPReleaseVersions : string.
Variable json_Unmarshal_ops : bytes → list Op * option error.
Variable json_Unmarshal_string : bytes → string → string * option error.

(** An [Environment] is a [boshcli.IAASEnvironment]. *)
Definition asIAASEnvironment (e : Environment) : boshcli.IAASEnvironment :=
  boshcli.mkIAASEnvironment
    (ConfigureDirectorManifestCPI e)
    (λ _, ConfigureDirectorCloudConfig e)
    (λ _, ConfigureConcourseStemcell GCPReleaseVersions json_Unmarshal_ops
            json_Unmarshal_string e).
End Director.
End gcp.

(** ** Vocabulary of the statements *)

(** [p] was a scratch location of the call with trace [l]: a temporary
    file it created, or the path handed out for a state artifact. *)
Definition scratch_in (l : list Event) (p : string) : Prop :=
  EvScratch p ∈ l ∨ ∃ k, EvHydrated k p ∈ l.

(** No file exists at [p]. *)
Definition gone {St} (w : World St) (p : string) : Prop :=
  files (w_fs w) !! p = None.

(** The substring relation that [strings.Contains] decides. *)
Definition mentions (s sub : string) : Prop :=
  ∃ before after, s = before +:+ sub +:+ after.

(** A line as the detached runner forwards it: [fmt.Sprintf("%s\n", text)]. *)
Definition line_of (t : string) : bytes := bytes_of (t +:+ LF).

(** Events that are neither a hydration, a read of a scratch file nor a
    call to [Set]. *)
Definition is_quiet (e : Event) : Prop :=
  match e with
  | EvHydrated _ _ | EvSet _ _ | EvReadFile _ _ => False
  | _ => True
  end.

Definition quiet (l : list Event) : Prop := ∀ e, e ∈ l → is_quiet e.

(** The trace of one deferred upload that found [content] at [path]. *)
Definition upload_events (key path : string) (content : option bytes)
  : list Event :=
  EvReadFile path content
  :: match content with
     | Some v => [EvSet key v]
     | None => []
     end.

(** The argument vector of an authenticated operation, as the
    specification words it, after the binary's name. *)
Definition authArgs (ip password caPath : string) : list string :=
  ["--non-interactive"; "--environment"; "https://" +:+ ip; "--ca-cert";
   caPath; "--client"; "admin"; "--client-secret"; password].

Definition deploymentArgs : list string := ["--deployment"; "concourse"].

(** The mode [RunAuthenticatedCommand] is to use. *)
Definition modeFor (detach : bool) (action : string) : ExecMode :=
  if detach && bool_decide (action = "deploy") then Detached else Blocking.

(** Events of a deferred upload: the read of the scratch file and the
    call to [Set]. *)
Definition is_upload (e : Event) : bool :=
  match e with
  | EvReadFile _ _ | EvSet _ _ => true
  | _ => false
  end.

(** Once an upload has begun, nothing but uploads follows in the trace. *)
Fixpoint uploads_last (l : list Event) : bool :=
  match l with
  | [] => true
  | e :: rest =>
      if is_upload e then forallb is_upload rest else uploads_last rest
  end.

(** An object store that gives back what was put: a [GetObject] after a
    successful [PutObject] of the same bucket and key finds a body that
    reads as the bytes put. *)
Definition gives_back {T} (api : @gcp.S3API T) : Prop :=
  ∀ bucket key value st st',
    gcp.PutObject api bucket key value st = (None, st') →
    ∃ st'', gcp.GetObject api bucket key st'
            = (gcp.mkGetObjectOutput value None, None, st'').

(** The files of a machine after [data] was hydrated to [path]: bytes
    make a file, no bytes make none. *)
Definition with_artifact (path : string) (data : bytes)
    (m : gmap string bytes) : gmap string bytes :=
  match data with
  | [] => m
  | _ => <[path := data]> m
  end.

(** What [cmd.Run()] returns for a process: the error of the start, or
    else the exit status. *)
Definition run_error (p : ProcResult) : option error :=
  match pr_start p with
  | Some e => Some e
  | None => pr_exit p
  end.

(** ** Fixtures: small stores, processes and worlds to run the code on *)

Module fixtures.

(** A store kept in memory; an absent key reads as no bytes. *)
Definition memStore : @boshcli.Store (gmap string bytes) :=
  boshcli.mkStore (λ k v st, (None, <[k := v]> st))
                  (λ k st, (default [] (st !! k), None, st)).

(** The same store when every [Set] fails. *)
Definition readOnlyStore : @boshcli.Store (gmap string bytes) :=
  boshcli.mkStore (λ k v st, (Some (PlainError "access denied"), st))
                  (boshcli.StoreGet memStore).

(** An empty machine in front of store [st]. *)
Definition world0 (st : gmap string bytes) : World (gmap string bytes) :=
  mkWorld (mkFS ∅ ∅) 0 [] st [] [] [].

Definition config : boshcli.IAASEnvironment :=
  boshcli.mkIAASEnvironment (λ _, ("manifest", None))
                            (λ _, ("cloud-config", None))
                            (λ _, ("stemcell.tgz", None)).

Definition interpolate (manifest ops : string) (vars : gmap string Value)
  : string * option error := (manifest, None).

Definition releases (r : ResourceID) : Resource :=
  match r with
  | BOSHRelease => mkResource "https://bosh.example/bosh.tgz" "270.2.0" "b0"
  | BPMRelease => mkResource "https://bosh.example/bpm.tgz" "1.1.0" "b1"
  end.

(** A binary that exits with a failure and touches nothing. *)
Definition failingCLI : boshcli.CLI :=
  boshcli.mkCLI
    (λ _ _ fs, mkProc None [] fs (Some (PlainError "exit status 1")))
    "bosh".

(** A binary that prints [lines], touches nothing and exits cleanly. *)
Definition printingCLI (lines : list string) : boshcli.CLI :=
  boshcli.mkCLI (λ _ _ fs, mkProc None lines fs None) "bosh".

Definition deployOutput : list string :=
  ["Using environment"; "Task 42"; "Preparing deployment: started";
   "Updating instance web"].

Definition stalledOutput : list string :=
  ["Using environment"; "Task 43"].

(** A machine whose sink refuses the first write. *)
Definition brokenSinkWorld : World (gmap string bytes) :=
  mkWorld (mkFS ∅ ∅) 0 [] ∅ [] [] [Some (PlainError "broken pipe")].

(** A decoder of JSON strings without escapes: ["..."] gives the
    text between the quotes, [null] leaves the variable alone, anything
    else is a type error. *)
Definition quote : ascii := ascii_of_nat 34.

Fixpoint unquoteTail (s : string) : option string :=
  match s with
  | EmptyString => None
  | String c EmptyString =>
      if Ascii.eqb c quote then Some EmptyString else None
  | String c s' => String c <$> unquoteTail s'
  end.

Definition decodeString (data : bytes) (current : string)
  : string * option error :=
  match string_of data with
  | String c s' =>
      if Ascii.eqb c quote then
        match unquoteTail s' with
        | Some v => (v, None)
        | None => (current, Some (PlainError "invalid JSON string"))
        end
      else if String.eqb (String c s') "null" then (current, None)
      else (current, Some (PlainError "cannot unmarshal into string"))
  | EmptyString => (current, Some (PlainError "unexpected end of JSON input"))
  end.

Definition jsonString (s : string) : bytes :=
  bytes_of (String quote s +:+ String quote EmptyString).

(** A release-version document, already split into its ops. *)
Definition versionOps : list gcp.Op :=
  [gcp.mkOp "/releases/name=concourse/version" (jsonString "5.0.0");
   gcp.mkOp "/stemcells/alias=xenial/version" (jsonString "5");
   gcp.mkOp "/releases/name=bpm/version" (jsonString "1.0.0")].

Definition decodeOps (ops : list gcp.Op) (doc : bytes)
  : list gcp.Op * option error := (ops, None).

(** An S3 bucket kept in memory; [failing] makes every call fail. *)
Definition memS3 (failing : bool) : @gcp.S3API (gmap string bytes) :=
  gcp.mkS3API
    (λ bucket key st,
       if failing then
         (gcp.mkGetObjectOutput [] None,
          Some (AwsError "InternalError" "try again"), st)
       else
         match st !! key with
         | Some data => (gcp.mkGetObjectOutput data None, None, st)
         | None =>
             (gcp.mkGetObjectOutput [] None,
              Some (AwsError "NoSuchKey" "no such key"), st)
         end)
    (λ bucket key value st,
       if failing then (Some (AwsError "InternalError" "try again"), st)
       else (None, <[key := value]> st)).
(** A store whose [Get] always fails. *)
Definition brokenStore : @boshcli.Store (gmap string bytes) :=
  boshcli.mkStore (λ k v st, (None, <[k := v]> st))
                  (λ k st, ([], Some (PlainError "connection refused"), st)).

(** A director configuration that cannot be produced. *)
Definition failingConfig : boshcli.IAASEnvironment :=
  boshcli.mkIAASEnvironment
    (λ _, ("", Some (PlainError "no credentials")))
    (λ _, ("", Some (PlainError "no template")))
    (λ _, ("", Some (PlainError "no stemcell"))).

(** A GCP environment whose credentials file is [/creds.json]. *)
Definition gcpEnvironment : gcp.Environment :=
  gcp.mkEnvironment "" "bosh" "35.1.2.3" "/creds.json" "10.0.0.0/24"
    "10.0.0.1" "10.0.0.6" "net" "10.0.1.0/24" "10.0.1.1" "10.0.1.2"
    "private" "project" "10.0.2.0/24" "10.0.2.1" "10.0.2.2" "10.0.2.3"
    "ssh-rsa key" "public" false "" "europe-west1-b".
End fixtures.

(** * Proofs *)

#[global] Opaque tmp_retries.

#[local] Set Warnings "-clear-no-such-hyp".

(** ** Reading a run *)

Section Runs.
Context {St : Type}.


Lemma bind_inv {A B} (m : M St A) (k : A → M St B) w b w2 l :
  bind m k w = (b, w2, l) →
  ∃ a w1 l1 l2, m w = (a, w1, l1) ∧ k a w1 = (b, w2, l2) ∧ l = l1 ++ l2.
Proof.
  unfold bind. destruct (m w) as [[a w1] l1].
  destruct (k a w1) as [[b' w2'] l2] eqn:Hk. intros [= <- <- <-].
  by exists a, w1, l1, l2.
Qed.

Lemma defer_inv {A B} (d : M St B) (body : M St A) w r w2 l :
  defer_ d body w = (r, w2, l) →
  ∃ w1 l1 x l2, body w = (r, w1, l1) ∧ d w1 = (x, w2, l2) ∧ l = l1 ++ l2.
Proof.
  unfold defer_. destruct (body w) as [[r' w1] l1].
  destruct (d w1) as [[x w2'] l2] eqn:Hd. intros [= <- <- <-].
  by exists w1, l1, x, l2.
Qed.

Lemma run_eta {A} (m : M St A) w :
  m w = (result m w, final m w, events m w).
Proof. unfold result, final, events. by destruct (m w) as [[? ?] ?]. Qed.
End Runs.

(** Name the components of a result that is a pair. *)
Ltac split_prod a :=
  lazymatch type of a with
  | (_ * _)%type =>
      let x := fresh "r" in let y := fresh "r" in
      destruct a as [x y]; try split_prod x
  | _ => idtac
  end.

(** Take a run of [bind], [defer_] or a primitive apart. *)
Ltac run_inv H :=
  lazymatch type of H with
  | bind _ _ _ = _ =>
      let a := fresh "a" in let w := fresh "w" in
      let l1 := fresh "l" in let l2 := fresh "l" in
      let H1 := fresh "Hrun" in let H2 := fresh "Hrun" in let E := fresh "El" in
      apply bind_inv in H as (a & w & l1 & l2 & H1 & H2 & E);
      subst; split_prod a; cbv beta iota in H2
  | defer_ _ _ _ = _ =>
      let x := fresh "x" in let w := fresh "w" in
      let l1 := fresh "l" in let l2 := fresh "l" in
      let H1 := fresh "Hrun" in let H2 := fresh "Hrun" in let E := fresh "El" in
      apply defer_inv in H as (w & l1 & x & l2 & H1 & H2 & E);
      subst
  | ret _ _ = _ => unfold ret in H; inversion H; subst; try clear H
  | emit _ _ = _ => unfold emit in H; inversion H; subst; try clear H
  | gets _ _ = _ => unfold gets in H; inversion H; subst; try clear H
  | get_fs _ = _ => unfold get_fs, gets in H; inversion H; subst; try clear H
  | modify _ _ = _ => unfold modify in H; inversion H; subst; try clear H
  | put_fs _ _ = _ => unfold put_fs, modify in H; inversion H; subst; try clear H
  | with_fs _ _ = _ => unfold with_fs, modify in H; inversion H; subst; try clear H
  | (match ?a with _ => _ end) _ = _ =>
      first [ is_var a; destruct a | destruct a eqn:? ]
  end.

(** The specifications known so far; extended as lemmas are proved. *)
Ltac run_spec H := fail.

Ltac run_step :=
  match goal with
  | H : _ = (_, _, _) |- _ => first [ progress run_inv H | run_spec H ]
  | H : _ ∧ _ |- _ => destruct H
  | H : context [match Some _ with _ => _ end] |- _ => progress cbv beta iota in H
  | H : context [match None with _ => _ end] |- _ => progress cbv beta iota in H
  | H : ?x = _ |- _ => is_var x; subst x
  | H : _ = ?x |- _ => is_var x; subst x
  end.

Ltac runs := repeat run_step.

(** ** The operating-system calls *)

Section OSFacts.
Context {St : Type}.
Implicit Types (w : World St) (fs : FS).

Lemma tmp_pick_fresh fs tries n m :
  tmp_pick fs tries n = Some m → fs_exists fs (tmp_name m) = false.
Proof.
  revert n. induction tries as [|t IH]; intros n; simpl; [done|].
  destruct (fs_exists fs (tmp_name n)) eqn:E; [apply IH|].
  by intros [= <-].
Qed.

Lemma fs_exists_false fs p :
  fs_exists fs p = false → files fs !! p = None ∧ p ∉ dirs fs.
Proof.
  unfold fs_exists. intros [H1 H2]%orb_false_elim.
  apply bool_decide_eq_false in H1, H2. split; [|done].
  destruct (files fs !! p) eqn:E; [|done]. destruct H1. by eexists.
Qed.

Lemma tmp_name_nonempty n : tmp_name n ≠ "".
Proof. done. Qed.

Lemma os_fault_inv w f w1 l :
  os_fault w = (f, w1, l) → l = [] ∧ w_fs w1 = w_fs w ∧ w_tmp w1 = w_tmp w.
Proof.
  unfold os_fault. destruct (w_faults w); intros [= <- <- <-]; done.
Qed.

Lemma ioutil_TempFile_spec w name err w1 l :
  ioutil_TempFile w = (name, err, w1, l) →
  l = [] ∧
  match err with
  | Some _ => w_fs w1 = w_fs w
  | None =>
      fs_exists (w_fs w) name = false ∧ w_fs w1 = fs_create name (w_fs w)
  end.
Proof.
  unfold ioutil_TempFile. intros H. run_inv H.
  apply os_fault_inv in Hrun as (-> & Hfs & Htmp).
  runs; simpl; rewrite <- ?Hfs; split_and?; try done.
  by eapply tmp_pick_fresh.
Qed.

Lemma ioutil_TempDir_spec w name err w1 l :
  ioutil_TempDir w = (name, err, w1, l) →
  match err with
  | Some _ => l = [] ∧ w_fs w1 = w_fs w ∧ name = ""
  | None =>
      l = [EvMkdir name] ∧ fs_exists (w_fs w) name = false ∧
      w_fs w1 = fs_mkdir name (w_fs w) ∧ name ≠ ""
  end.
Proof.
  unfold ioutil_TempDir. intros H. run_inv H.
  apply os_fault_inv in Hrun as (-> & Hfs & Htmp).
  runs; simpl; rewrite <- ?Hfs; split_and?; try done.
  by eapply tmp_pick_fresh.
Qed.
End OSFacts.

Section OSFacts2.
Context {St : Type}.
Implicit Types (w : World St) (fs : FS).

Lemma lookup_not_is_Some (m : gmap string bytes) p :
  ¬ is_Some (m !! p) → m !! p = None.
Proof. by rewrite eq_None_not_Some. Qed.

Lemma os_Remove_spec name w r w1 l :
  os_Remove name w = (r, w1, l) →
  l = [] ∧ files (w_fs w1) = delete name (files (w_fs w)) ∧
  dirs (w_fs w1) ⊆ dirs (w_fs w).
Proof.
  unfold os_Remove. intros H. runs; simpl; split_and?; try done;
    repeat match goal with
           | E : bool_decide _ = false |- _ => apply bool_decide_eq_false in E
           end;
    try (symmetry; apply delete_id; by apply lookup_not_is_Some);
    set_solver.
Qed.

Lemma os_Remove_gone name w : gone (final (os_Remove name) w) name.
Proof.
  pose proof (run_eta (os_Remove name) w) as H.
  apply os_Remove_spec in H as (_ & H & _).
  unfold gone. rewrite H. apply lookup_delete_eq.
Qed.

Lemma lookup_delete_gone (m : gmap string bytes) p q :
  m !! q = None → delete p m !! q = None.
Proof. intros H. apply lookup_delete_None. by right. Qed.

Lemma ioutil_ReadFile_spec path w data err w1 l :
  ioutil_ReadFile path w = (data, err, w1, l) →
  w1 = w ∧ l = [EvReadFile path (files (w_fs w) !! path)] ∧
  match files (w_fs w) !! path with
  | Some d => data = d ∧ err = None
  | None => data = [] ∧ err = Some ErrNotExist
  end.
Proof.
  unfold ioutil_ReadFile. intros H. runs; simpl;
    match goal with E : _ !! _ = _ |- _ => by rewrite E end.
Qed.

Lemma file_Write_spec name data w err w1 l :
  file_Write name data w = (err, w1, l) →
  l = [] ∧
  match err with
  | Some _ => w_fs w1 = w_fs w
  | None => w_fs w1 = fs_write name data (w_fs w)
  end.
Proof.
  unfold file_Write. intros H. run_inv H.
  apply os_fault_inv in Hrun as (-> & Hfs & _).
  runs; simpl; by rewrite ?Hfs.
Qed.

Lemma file_Close_spec name w err w1 l :
  file_Close name w = (err, w1, l) → l = [] ∧ w_fs w1 = w_fs w.
Proof. intros H. apply os_fault_inv in H. tauto. Qed.
End OSFacts2.

Ltac run_spec_os H :=
  lazymatch type of H with
  | ioutil_TempFile _ = _ => apply ioutil_TempFile_spec in H
  | ioutil_TempDir _ = _ => apply ioutil_TempDir_spec in H
  | file_Write _ _ _ = _ => apply file_Write_spec in H
  | file_Close _ _ = _ => apply file_Close_spec in H
  | os_Remove _ _ = _ => apply os_Remove_spec in H
  | ioutil_ReadFile _ _ = _ => apply ioutil_ReadFile_spec in H
  end.

Ltac run_spec H ::= run_spec_os H.

(** ** The helpers of package [boshcli] *)

Section BoshcliFacts.
Context {St : Type}.
Implicit Types (w : World St) (fs : FS) (store : @boshcli.Store St).

Lemma store_Get_spec store key w data err w1 l :
  boshcli.store_Get store key w = (data, err, w1, l) →
  l = [EvGet key (bool_decide (err = None))] ∧ w_fs w1 = w_fs w ∧
  (boshcli.StoreGet store key (w_store w)).1 = (data, err).
Proof.
  unfold boshcli.store_Get. intros H. runs. simpl.
  match goal with E : boshcli.StoreGet _ _ _ = _ |- _ => by rewrite E end.
Qed.

Lemma store_Set_spec store key value w err w1 l :
  boshcli.store_Set store key value w = (err, w1, l) →
  l = [EvSet key value] ∧ w_fs w1 = w_fs w.
Proof. unfold boshcli.store_Set. intros H. by runs. Qed.

End BoshcliFacts.

Ltac run_spec_store H :=
  lazymatch type of H with
  | boshcli.store_Get _ _ _ = _ => apply store_Get_spec in H
  | boshcli.store_Set _ _ _ _ = _ => apply store_Set_spec in H
  | _ => run_spec_os H
  end.

Ltac run_spec H ::= run_spec_store H.

Section BoshcliFacts2.
Context {St : Type}.
Implicit Types (w : World St) (fs : FS) (store : @boshcli.Store St).

Lemma writeTempFile_spec data w name err w1 l :
  boshcli.writeTempFile data w = (name, err, w1, l) →
  match err with
  | None =>
      l = [EvScratch name] ∧ fs_exists (w_fs w) name = false ∧
      files (w_fs w1) = <[name := data]> (files (w_fs w)) ∧
      dirs (w_fs w1) = dirs (w_fs w)
  | Some _ =>
      files (w_fs w1) = files (w_fs w) ∧
      (l = [] ∨ (l = [EvScratch name] ∧ files (w_fs w) !! name = None))
  end.
Proof.
  unfold boshcli.writeTempFile. intros H. runs; simpl.
  - split; [congruence | by left].
  - destruct (fs_exists_false _ _ H7) as [Hnone _].
    split; [|by right].
    rewrite H0, H3. destruct a0; rewrite H5, H8; simpl;
      rewrite ?delete_insert_eq; by apply delete_id.
  - destruct a0; [done|]. rewrite H0, H2, H5. simpl.
    by rewrite insert_insert_eq.
Qed.

(** What the deferred upload does: read the scratch file, hand it to the
    store if the read worked, remove the file. *)
Lemma upload_spec store key path w r w1 l :
  boshcli.upload store key path w = (r, w1, l) →
  l = EvReadFile path (files (w_fs w) !! path)
      :: match files (w_fs w) !! path with
         | Some v => [EvSet key v]
         | None => []
         end ∧
  files (w_fs w1) = delete path (files (w_fs w)).
Proof.
  unfold boshcli.upload. intros H. runs;
    destruct (files (w_fs w) !! path) eqn:E; runs; try done.
  simpl. split; [done|]. congruence.
Qed.

End BoshcliFacts2.

Ltac run_spec_files H :=
  lazymatch type of H with
  | boshcli.writeTempFile _ _ = _ => apply writeTempFile_spec in H
  | boshcli.upload _ _ _ _ = _ => apply upload_spec in H
  | _ => run_spec_store H
  end.

Ltac run_spec H ::= run_spec_files H.

Section BoshcliFacts3.
Context {St : Type}.
Implicit Types (w : World St) (fs : FS) (store : @boshcli.Store St).

Lemma filepath_Join_nonempty dir name :
  dir ≠ "" → filepath_Join dir name = dir +:+ "/" +:+ name.
Proof. intros H. unfold filepath_Join. by destruct (decide (dir = "")). Qed.

(** Hydration of one state artifact. *)
Lemma writeToDisk_spec store key w path up err w1 l :
  boshcli.writeToDisk store key w = (path, up, err, w1, l) →
  match err with
  | Some _ =>
      files (w_fs w1) = files (w_fs w) ∧
      (l = [EvGet key false] ∨ l = [EvGet key true] ∨
       (∃ name, l = [EvGet key true; EvScratch name] ∧
                files (w_fs w) !! name = None))
  | None =>
      up = boshcli.upload store key path ∧
      ∃ data st, boshcli.StoreGet store key (w_store w) = (data, None, st) ∧
      match data with
      | [] =>
          ∃ d, l = [EvGet key true; EvMkdir d; EvHydrated key path] ∧
               path = d +:+ "/" +:+ key ∧
               fs_exists (w_fs w) d = false ∧
               w_fs w1 = fs_mkdir d (w_fs w)
      | _ =>
          l = [EvGet key true; EvScratch path; EvHydrated key path] ∧
          fs_exists (w_fs w) path = false ∧
          files (w_fs w1) = <[path := data]> (files (w_fs w)) ∧
          dirs (w_fs w1) = dirs (w_fs w)
      end
  end.
Proof.
  unfold boshcli.writeToDisk. intros H. runs; simpl;
    repeat match goal with
           | H : (boshcli.StoreGet ?s ?k ?st).1 = _ |- _ =>
               destruct (boshcli.StoreGet s k st) as [[? ?] ?] eqn:?;
               simpl in H; inversion H; subst; clear H
           end.
  - split; [congruence | by left].
  - split; [congruence | right; by left].
  - split; [congruence|].
    match goal with H : _ ∨ _ |- _ => destruct H as [->|[-> Hn]] end; simpl.
    + right; by left.
    + right; right. eexists. split; [done|]. congruence.
  - split; [done|]. eexists _, _. split; [done|]. simpl.
    exists r. rewrite filepath_Join_nonempty by done.
    split_and!; try done; congruence.
  - split; [done|]. eexists _, _. split; [done|]. simpl.
    split_and!; try done; congruence.
Qed.
End BoshcliFacts3.

Section RunnerFacts.
Context {St : Type}.
Implicit Types (w : World St) (c : boshcli.CLI).

Lemma command_spec c mode args w cmd w1 l :
  boshcli.command c mode args w = (cmd, w1, l) →
  l = [EvExec mode (boshcli.boshPath c :: args)] ∧ w1 = w ∧
  cmd_args cmd = boshcli.boshPath c :: args.
Proof. unfold boshcli.command. intros H. by runs. Qed.

Lemma sink_Write_spec b w err w1 l :
  sink_Write b w = (err, w1, l) → l = [] ∧ w_fs w1 = w_fs w.
Proof.
  unfold sink_Write. intros H.
  destruct (w_sink_faults w) as [|[e|] rest]; by inversion H.
Qed.

Lemma cmd_Run_spec cmd out w b err w1 l :
  boshcli.cmd_Run (St := St) cmd out w = (b, err, w1, l) → l = [].
Proof.
  unfold boshcli.cmd_Run. intros H. run_inv H. run_inv Hrun.
  destruct (pr_start (cmd_proc cmd (w_fs w0))); [by runs|].
  run_inv Hrun0. run_inv Hrun. destruct out; runs; try done.
  all: repeat match goal with
              | H : _ = (_, _, _) |- _ =>
                  first [ apply sink_Write_spec in H as [-> _]
                        | unfold os_Stdout_Write in H; run_inv H
                        | run_inv H ]
              end; done.
Qed.
End RunnerFacts.

Ltac run_spec_all H :=
  lazymatch type of H with
  | boshcli.writeToDisk _ _ _ = _ => apply writeToDisk_spec in H
  | boshcli.command _ _ _ _ = _ => apply command_spec in H
  | boshcli.cmd_Run _ _ _ = _ => apply cmd_Run_spec in H
  | sink_Write _ _ = _ => apply sink_Write_spec in H
  | _ => run_spec_files H
  end.

Ltac run_spec H ::= run_spec_all H.

(** Close a goal [scratch_in l p → gone w p] once the run is taken apart:
    find which scratch path [p] is, then follow the files to the end. *)
Ltac gone_solve :=
  first
    [ assumption
    | apply lookup_delete_eq
    | apply lookup_delete_gone; gone_solve
    | match goal with
      | H : files (w_fs ?w) = _ |- files (w_fs ?w) !! _ = None =>
          rewrite H; gone_solve
      | H : w_fs ?w = _ |- files (w_fs ?w) !! _ = None =>
          rewrite H; simpl; gone_solve
      end ].

(** Open up what the specifications gave: conjunctions, disjunctions,
    witnesses, and the case distinctions still pending on a variable. *)
Ltac unpack :=
  repeat first
    [ progress destruct_and?
    | progress destruct_or?
    | match goal with
      | H : ∃ _, _ |- _ => destruct H
      | H : match ?d with [] => _ | _ :: _ => _ end |- _ =>
          is_var d; destruct d
      | H : match ?d with Some _ => _ | None => _ end |- _ =>
          is_var d; destruct d
      | H : ?x = _ |- _ => is_var x; subst x
      | H : _ = ?x |- _ => is_var x; subst x
      end ].

Ltac split_reads :=
  repeat match goal with
         | |- context [match ?x with Some _ => _ | None => _ end] =>
             destruct x eqn:?
         | H : context [match ?x with Some _ => _ | None => _ end] |- _ =>
             destruct x eqn:?
         end.

Ltac tidy_finish :=
  unfold scratch_in, gone; intros Hs; unpack; split_reads;
  repeat match goal with
         | H : _ ∈ _ |- _ => split_reads; simpl in H; set_unfold in H; unpack
         end;
  simplify_eq/=; gone_solve.

(** Name the outcome of running [m] from [w]. *)
Ltac take_run :=
  match goal with
  | |- context [events ?m ?w] =>
      let H := fresh "Hrun" in
      pose proof (run_eta m w) as H;
      generalize dependent (events m w);
      generalize dependent (final m w);
      generalize dependent (result m w);
      intros
  end.

Section Tidy.
Context {St : Type}.
Implicit Types (w : World St) (c : boshcli.CLI).

Lemma Recreate_tidy c config ip password ca w p :
  scratch_in (events (boshcli.Recreate c config ip password ca) w) p →
  gone (final (boshcli.Recreate c config ip password ca) w) p.
Proof.
  take_run. revert H. unfold boshcli.Recreate in Hrun. runs; tidy_finish.
Qed.

Lemma UploadConcourseStemcell_tidy c config ip password ca w p :
  scratch_in
    (events (boshcli.UploadConcourseStemcell c config ip password ca) w) p →
  gone (final (boshcli.UploadConcourseStemcell c config ip password ca) w) p.
Proof.
  take_run. revert H. unfold boshcli.UploadConcourseStemcell, boshcli.call_config in Hrun.
  runs; tidy_finish.
Qed.

Lemma UpdateCloudConfig_tidy c config ip password ca w p :
  scratch_in (events (boshcli.UpdateCloudConfig c config ip password ca) w) p →
  gone (final (boshcli.UpdateCloudConfig c config ip password ca) w) p.
Proof.
  take_run. revert H. unfold boshcli.UpdateCloudConfig, boshcli.call_config in Hrun.
  runs; tidy_finish.
Qed.

Lemma Locks_tidy c config ip password ca w p :
  scratch_in (events (boshcli.Locks c config ip password ca) w) p →
  gone (final (boshcli.Locks c config ip password ca) w) p.
Proof.
  take_run. revert H. unfold boshcli.Locks in Hrun. runs; tidy_finish.
Qed.
End Tidy.

Section RunnerFacts2.
Context {St : Type}.
Implicit Types (w : World St) (c : boshcli.CLI).

Lemma boshCommand_spec c flags w err w1 l :
  boshcli.boshCommand c flags w = (err, w1, l) →
  l = [EvExec Blocking (boshcli.boshPath c :: flags)].
Proof. unfold boshcli.boshCommand. intros H. by runs. Qed.

Lemma detachedScan_events flags tokens w err w1 l :
  boshcli.detachedScan flags tokens w = (err, w1, l) →
  l = [] ∧ w_fs w1 = w_fs w.
Proof.
  revert w l. induction tokens as [|text rest IH]; intros w l H; simpl in H.
  - by runs.
  - run_inv H. apply sink_Write_spec in Hrun as [-> Hfs].
    run_inv Hrun0; [by runs|].
    destruct (strings_Contains text boshcli.detachMarker).
    + runs. split; [done | congruence].
    + apply IH in Hrun0 as [-> ?]. split; [done | congruence].
Qed.

End RunnerFacts2.

Ltac run_spec_scan H :=
  lazymatch type of H with
  | boshcli.boshCommand _ _ _ = _ => apply boshCommand_spec in H
  | boshcli.detachedScan _ _ _ = _ => apply detachedScan_events in H
  | os_fault _ = _ => apply os_fault_inv in H
  | _ => run_spec_all H
  end.

Ltac run_spec H ::= run_spec_scan H.

Section RunnerFacts3.
Context {St : Type}.
Implicit Types (w : World St) (c : boshcli.CLI).

Lemma detachedBoshCommand_spec c flags w err w1 l :
  boshcli.detachedBoshCommand c flags w = (err, w1, l) →
  l = [EvExec Detached (boshcli.boshPath c :: flags)] ∧ w_fs w1 = w_fs w.
Proof.
  unfold boshcli.detachedBoshCommand. intros H.
  runs; (split; [done | congruence]).
Qed.
End RunnerFacts3.

Ltac run_spec_run H :=
  lazymatch type of H with
  | boshcli.detachedBoshCommand _ _ _ = _ =>
      apply detachedBoshCommand_spec in H
  | _ => run_spec_scan H
  end.

Ltac run_spec H ::= run_spec_run H.

Section Tidy2.
Context {St : Type}.
Implicit Types (w : World St) (c : boshcli.CLI).

Lemma RunAuthenticatedCommand_tidy c action ip password ca detach flags w p :
  scratch_in
    (events (boshcli.RunAuthenticatedCommand c action ip password ca
               detach flags) w) p →
  gone (final (boshcli.RunAuthenticatedCommand c action ip password ca
                 detach flags) w) p.
Proof.
  take_run. revert H. unfold boshcli.RunAuthenticatedCommand in Hrun.
  runs; tidy_finish.
Qed.

Lemma xEnv_tidy interp res c action (store : @boshcli.Store St) config
    password cert key ca tags w p :
  scratch_in
    (events (boshcli.xEnv interp res c action store config password cert
               key ca tags) w) p →
  gone (final (boshcli.xEnv interp res c action store config password cert
                 key ca tags) w) p.
Proof.
  take_run. revert H. unfold boshcli.xEnv, boshcli.call_config in Hrun.
  runs; tidy_finish.
Qed.
End Tidy2.

(** ** The trace of one pass through [xEnv] *)

Section TraceFacts.
Context {St : Type}.
Implicit Types (w : World St) (store : @boshcli.Store St).

Lemma quiet_nil : quiet [].
Proof. intros e H. by apply elem_of_nil in H. Qed.

Lemma quiet_app l1 l2 : quiet l1 → quiet l2 → quiet (l1 ++ l2).
Proof. intros H1 H2 e [?|?]%elem_of_app; auto. Qed.

Lemma quiet_cons e l : is_quiet e → quiet l → quiet (e :: l).
Proof. intros H1 H2 e' [->|?]%elem_of_cons; auto. Qed.

Lemma writeTempFile_quiet data w name err w1 l :
  boshcli.writeTempFile data w = (name, err, w1, l) → quiet l.
Proof.
  intros H. apply writeTempFile_spec in H. destruct err; unpack;
    repeat first [ apply quiet_nil | apply quiet_cons; [done|] ].
Qed.

Lemma upload_trace store key path w r w1 l :
  boshcli.upload store key path w = (r, w1, l) →
  ∃ content, l = upload_events key path content.
Proof. intros H. apply upload_spec in H as [-> _]. by eexists. Qed.

Lemma writeToDisk_trace store key w path up err w1 l :
  boshcli.writeToDisk store key w = (path, up, err, w1, l) →
  match err with
  | Some _ => quiet l
  | None =>
      up = boshcli.upload store key path ∧
      ∃ pre, l = pre ++ [EvHydrated key path] ∧ quiet pre ∧
             EvGet key true ∈ pre
  end.
Proof.
  intros H. apply writeToDisk_spec in H. destruct err; unpack;
    try (repeat first [ apply quiet_nil | apply quiet_cons; [done|] ]).
  - split; [done|]. eexists [EvGet key true; EvMkdir _]. split_and!; try done.
    + repeat first [ apply quiet_nil | apply quiet_cons; [done|] ].
    + set_solver.
  - split; [done|]. exists [EvGet key true; EvScratch path].
    split_and!; try done.
    + repeat first [ apply quiet_nil | apply quiet_cons; [done|] ].
    + set_solver.
Qed.
End TraceFacts.

Ltac run_spec_trace H :=
  lazymatch type of H with
  | boshcli.writeToDisk _ _ _ = _ => apply writeToDisk_trace in H
  | boshcli.writeTempFile _ _ = _ => apply writeTempFile_quiet in H
  | boshcli.upload _ _ _ _ = _ => apply upload_trace in H
  | boshcli.command _ _ _ _ = _ => apply command_spec in H
  | boshcli.cmd_Run _ _ _ = _ => apply cmd_Run_spec in H
  | os_Remove _ _ = _ => apply os_Remove_spec in H
  end.

Ltac run_spec H ::= run_spec_trace H.

Section XEnvTrace.
Context {St : Type}.
Implicit Types (w : World St) (c : boshcli.CLI).


Lemma quiet_no_set l k v : quiet l → EvSet k v ∈ l → False.
Proof. intros H Hin. exact (H _ Hin). Qed.

End XEnvTrace.

Ltac run_spec H ::= run_spec_run H.

(** Decide membership in a trace that computes to a literal list. *)
Ltac in_trace := apply (bool_decide_unpack _); vm_compute; reflexivity.


(** ** Hydration and clean-up *)



Section Claims2.
Context {St : Type}.
Implicit Types (w : World St) (c : boshcli.CLI).

(** C5 (as amended). When hydration of a state artifact succeeds:
    if [Get] gave no bytes (the key is absent), [writeToDisk] makes a
    new temporary directory, creates no file in it or anywhere else, and
    returns the path of the artifact's name inside that directory; if
    [Get] gave bytes, it creates a new temporary file that holds exactly
    those bytes and returns its path. *)
Theorem writeToDisk_hydration (store : @boshcli.Store St) key w :
  let run := boshcli.writeToDisk store key in
  let path := (result run w).1.1 in
  (result run w).2 = None →
  ∃ data st,
    boshcli.StoreGet store key (w_store w) = (data, None, st) ∧
    match data with
    | [] =>
        ∃ dir, path = dir +:+ "/" +:+ key ∧
               fs_exists (w_fs w) dir = false ∧
               files (w_fs (final run w)) = files (w_fs w) ∧
               dirs (w_fs (final run w)) = {[dir]} ∪ dirs (w_fs w)
    | _ =>
        fs_exists (w_fs w) path = false ∧
        files (w_fs (final run w)) = <[path := data]> (files (w_fs w)) ∧
        dirs (w_fs (final run w)) = dirs (w_fs w)
    end.
Proof.
  intros run path. subst run path.
  pose proof (run_eta (boshcli.writeToDisk store key) w) as H.
  destruct (result (boshcli.writeToDisk store key) w) as [[path up] err].
  simpl. intros ->. apply writeToDisk_spec in H as (_ & data & st & Hget & H).
  exists data, st. split; [done|]. destruct data as [|b data].
  - destruct H as (dir & _ & -> & Hfresh & Hfs). exists dir.
    rewrite Hfs. by split_and!.
  - by destruct H as (_ & ? & ? & ?).
Qed.

(** C6. On every exit path of every orchestrator operation, whatever
    failed, no file is left at any scratch location of the call: the
    temporary files it created (rendered manifest, cloud config, CA
    certificate, downloaded state artifacts) and the paths it handed out
    for the state artifacts. *)
Theorem scratch_files_removed interp res c (store : @boshcli.Store St)
    config password cert key ca tags ip action detach flags w p :
  (scratch_in (events (boshcli.CreateEnv interp res c store config password
                         cert key ca tags) w) p →
   gone (final (boshcli.CreateEnv interp res c store config password
                  cert key ca tags) w) p) ∧
  (scratch_in (events (boshcli.DeleteEnv interp res c store config password
                         cert key ca tags) w) p →
   gone (final (boshcli.DeleteEnv interp res c store config password
                  cert key ca tags) w) p) ∧
  (scratch_in (events (boshcli.UpdateCloudConfig c config ip password ca) w)
     p →
   gone (final (boshcli.UpdateCloudConfig c config ip password ca) w) p) ∧
  (scratch_in
     (events (boshcli.UploadConcourseStemcell c config ip password ca) w)
     p →
   gone (final (boshcli.UploadConcourseStemcell c config ip password ca) w)
     p) ∧
  (scratch_in (events (boshcli.Recreate c config ip password ca) w) p →
   gone (final (boshcli.Recreate c config ip password ca) w) p) ∧
  (scratch_in (events (boshcli.Locks c config ip password ca) w) p →
   gone (final (boshcli.Locks c config ip password ca) w) p) ∧
  (scratch_in
     (events (boshcli.RunAuthenticatedCommand c action ip password ca
                detach flags) w) p →
   gone (final (boshcli.RunAuthenticatedCommand c action ip password ca
                  detach flags) w) p).
Proof.
  split_and!.
  - apply xEnv_tidy.
  - apply xEnv_tidy.
  - apply UpdateCloudConfig_tidy.
  - apply UploadConcourseStemcell_tidy.
  - apply Recreate_tidy.
  - apply Locks_tidy.
  - apply RunAuthenticatedCommand_tidy.
Qed.
End Claims2.

(** C5, as stated, fails: for a key the store does not hold, hydration
    succeeds and returns a path at which there is no file; only the
    directory above it was made. *)
Lemma writeToDisk_absent_key_creates_no_file :
  let run := boshcli.writeToDisk fixtures.memStore "state.json" in
  let w := fixtures.world0 ∅ in
  (result run w).2 = None ∧
  (result run w).1.1 = "/tmp/0/state.json" ∧
  files (w_fs (final run w)) !! "/tmp/0/state.json" = None ∧
  files (w_fs (final run w)) = ∅ ∧
  dirs (w_fs (final run w)) = {["/tmp/0"]}.
Proof. cbv zeta. split_and!; vm_compute; reflexivity. Qed.

Lemma writeToDisk_hydration_witness :
  let store := fixtures.memStore in
  let w := fixtures.world0 (<["vars.yaml" := bytes_of "k: v"]> ∅) in
  let run := boshcli.writeToDisk store "vars.yaml" in
  let path := (result run w).1.1 in
  (result run w).2 = None ∧
  ∃ data st,
    boshcli.StoreGet store "vars.yaml" (w_store w) = (data, None, st) ∧
    match data with
    | [] =>
        ∃ dir, path = dir +:+ "/" +:+ "vars.yaml" ∧
               fs_exists (w_fs w) dir = false ∧
               files (w_fs (final run w)) = files (w_fs w) ∧
               dirs (w_fs (final run w)) = {[dir]} ∪ dirs (w_fs w)
    | _ =>
        fs_exists (w_fs w) path = false ∧
        files (w_fs (final run w)) = <[path := data]> (files (w_fs w)) ∧
        dirs (w_fs (final run w)) = dirs (w_fs w)
    end.
Proof.
  cbv zeta. split.
  - vm_compute. reflexivity.
  - apply (writeToDisk_hydration (St := gmap string bytes)).
    vm_compute. reflexivity.
Defined.

(** The directory made for an absent artifact is not a scratch file and
    stays behind when [CreateEnv] returns. *)
Lemma CreateEnv_leaves_temporary_directories :
  let run := boshcli.CreateEnv fixtures.interpolate fixtures.releases
               fixtures.failingCLI fixtures.memStore fixtures.config
               "secret" "cert" "key" "ca" ∅ in
  let w := fixtures.world0 ∅ in
  files (w_fs (final run w)) = ∅ ∧
  dirs (w_fs (final run w)) = {["/tmp/0"; "/tmp/1"]}.
Proof. cbv zeta. split; vm_compute; reflexivity. Qed.

(** ** Argument vectors *)

Ltac exec_cases :=
  intros Hin; unpack;
  repeat match goal with
         | H : _ ∈ _ |- _ => progress (simpl in H; set_unfold in H; unpack)
         end;
  simplify_eq/=.

Section Argv.
Context {St : Type}.
Implicit Types (w : World St) (c : boshcli.CLI).




Lemma RunAuthenticatedCommand_argv c action ip password ca detach flags
    w mode argv :
  let ev := events (boshcli.RunAuthenticatedCommand c action ip password
                      ca detach flags) w in
  EvExec mode argv ∈ ev →
  mode = modeFor detach action ∧
  ∃ caPath,
    EvScratch caPath ∈ ev ∧
    argv = boshcli.boshPath c
           :: authArgs ip password caPath ++ deploymentArgs
              ++ action :: flags.
Proof.
  intros ev. subst ev. take_run. revert H.
  unfold boshcli.RunAuthenticatedCommand, modeFor in Hrun |- *.
  runs; exec_cases;
    (split; [by rewrite ?Heqb|]; eexists; split; [|done]; set_solver).
Qed.


(** Once the CA certificate is on disk, the binary is launched. *)
Lemma RunAuthenticatedCommand_launches c action ip password ca detach flags
    w :
  (result (boshcli.writeTempFile (bytes_of ca)) w).2 = None →
  ∃ argv,
    EvExec (modeFor detach action) argv
    ∈ events (boshcli.RunAuthenticatedCommand c action ip password ca
                detach flags) w.
Proof.
  intros Hca. take_run.
  unfold boshcli.RunAuthenticatedCommand, modeFor in Hrun |- *.
  run_inv Hrun. unfold result in Hca.
  match goal with
  | H : boshcli.writeTempFile _ _ = _ |- _ =>
      rewrite H in Hca; simpl in Hca; subst; clear H
  end.
  runs;
    match goal with
    | |- ∃ argv, _ ∈ ?l =>
        match l with
        | context [EvExec _ ?a] => exists a; set_solver
        end
    end.
Qed.
End Argv.

Section Claims3.
Context {St : Type}.
Implicit Types (w : World St) (c : boshcli.CLI).


(** C8. [RunAuthenticatedCommand] drives the binary in detached mode
    exactly when [detach] is set and the action is [deploy]; with
    [detach] set and any other action it runs it in blocking mode.  Every
    launch of a call is in that one mode, and there is a launch as soon
    as the CA certificate file could be written. *)
Theorem RunAuthenticatedCommand_mode c action ip password ca detach flags
    w :
  (∀ mode argv,
     EvExec mode argv
     ∈ events (boshcli.RunAuthenticatedCommand c action ip password ca
                 detach flags) w →
     (mode = Detached ↔ detach = true ∧ action = "deploy") ∧
     (detach = true → action ≠ "deploy" → mode = Blocking)) ∧
  ((result (boshcli.writeTempFile (bytes_of ca)) w).2 = None →
   ∃ argv,
     EvExec (if detach && bool_decide (action = "deploy")
             then Detached else Blocking) argv
     ∈ events (boshcli.RunAuthenticatedCommand c action ip password ca
                 detach flags) w).
Proof.
  split.
  - intros mode argv Hin.
    apply RunAuthenticatedCommand_argv in Hin as [-> _]. unfold modeFor.
    destruct detach; simpl; try case_bool_decide; naive_solver.
  - apply RunAuthenticatedCommand_launches.
Qed.
End Claims3.


(** ** What the caller gets back *)

Section Results.
Context {St : Type}.
Implicit Types (w : World St) (c : boshcli.CLI) (store : @boshcli.Store St).

(** What a deferred call returns is dropped. *)
Lemma result_defer {A B} (d : M St B) (body : M St A) w :
  result (defer_ d body) w = result body w.
Proof.
  unfold result, defer_. destruct (body w) as [[r w1] l1].
  by destruct (d w1) as [[x w2] l2].
Qed.



Lemma result_bind {A B} (m : M St A) (k : A → M St B) w :
  result (bind m k) w = result (k (result m w)) (final m w).
Proof.
  unfold result, final, bind. destruct (m w) as [[a w1] l1]. simpl.
  by destruct (k a w1) as [[b w2] l2].
Qed.

End Results.

(** [Set] fails on every upload and the caller is told nothing: the
    process exits cleanly and [DeleteEnv] returns nil. *)
Lemma DeleteEnv_failing_Set_is_silent :
  let run := boshcli.DeleteEnv fixtures.interpolate fixtures.releases
               (fixtures.printingCLI []) fixtures.readOnlyStore
               fixtures.config "secret" "cert" "key" "ca" ∅ in
  let w := fixtures.world0 (<["state.json" := bytes_of "{}"]> ∅) in
  result run w = None ∧
  EvSet "state.json" (bytes_of "{}") ∈ events run w.
Proof. cbv zeta. split; [vm_compute; reflexivity | in_trace]. Qed.

(** The scratch files cannot be read back and the caller is told nothing
    of it: [CreateEnv] returns the error of the process. *)
Lemma CreateEnv_failing_read_is_silent :
  let run := boshcli.CreateEnv fixtures.interpolate fixtures.releases
               fixtures.failingCLI fixtures.memStore fixtures.config
               "secret" "cert" "key" "ca" ∅ in
  let w := fixtures.world0 ∅ in
  result run w = Some (PlainError "exit status 1") ∧
  EvReadFile "/tmp/0/state.json" None ∈ events run w ∧
  EvReadFile "/tmp/1/vars.yaml" None ∈ events run w.
Proof. cbv zeta. split_and!; [vm_compute; reflexivity | in_trace | in_trace]. Qed.

(** ** The detached runner *)

Section Strings.
Lemma append_cons a s t : String a s +:+ t = String a (s +:+ t).
Proof. reflexivity. Qed.

Lemma append_nil_l t : "" +:+ t = t.
Proof. reflexivity. Qed.

Lemma prefix_spec sub s :
  String.prefix sub s = true ↔ ∃ after, s = sub +:+ after.
Proof.
  revert s. induction sub as [|a sub IH]; intros s.
  - destruct s; simpl; (split; [by eexists | done]).
  - destruct s as [|b s]; simpl.
    + split; [done | by intros [? ?]].
    + setoid_rewrite append_cons.
      destruct (ascii_dec a b) as [->|Hne].
      * rewrite IH. split; intros [after H]; exists after; congruence.
      * split; [done | intros [after H]; congruence].
Qed.

Lemma strings_Contains_spec s sub :
  strings_Contains s sub = true ↔ mentions s sub.
Proof.
  unfold mentions. induction s as [|c s IH].
  - change (strings_Contains "" sub) with (String.prefix sub "" || false).
    rewrite orb_false_r, prefix_spec. split.
    + intros [after H]. by exists "", after.
    + intros ([|? ?] & after & H); [by exists after | done].
  - change (strings_Contains (String c s) sub)
      with (String.prefix sub (String c s) || strings_Contains s sub).
    rewrite orb_true_iff, prefix_spec, IH. split.
    + intros [[after H]|(before & after & H)].
      * by exists "", after.
      * exists (String c before), after. by rewrite append_cons, H.
    + intros ([|c' before] & after & H).
      * left. by exists after.
      * right. exists before, after. rewrite append_cons in H. congruence.
Qed.

Lemma strings_Contains_false s sub :
  strings_Contains s sub = false ↔ ¬ mentions s sub.
Proof.
  rewrite <- strings_Contains_spec. by destruct (strings_Contains s sub).
Qed.
End Strings.

Section Detached.
Context {St : Type}.
Implicit Types (w : World St) (c : boshcli.CLI).

(** A sink that takes every write. *)
Lemma sink_Write_ok b w :
  Forall (λ f, f = None) (w_sink_faults w) →
  ∃ rest, sink_Write b w = (None, set_sink (w_sink w ++ [b]) rest w, []) ∧
          Forall (λ f : option error, f = None) rest.
Proof.
  intros H. unfold sink_Write. destruct (w_sink_faults w) as [|f rest].
  - by exists [].
  - apply Forall_cons in H as [-> H]. by exists rest.
Qed.

Lemma detachedScan_no_marker flags tokens w :
  Forall (λ f, f = None) (w_sink_faults w) →
  (∀ t, t ∈ tokens → ¬ mentions t boshcli.detachMarker) →
  result (boshcli.detachedScan flags tokens) w
  = Some (boshcli.errNoTaskStart flags) ∧
  w_sink (final (boshcli.detachedScan flags tokens) w)
  = w_sink w ++ map line_of tokens.
Proof.
  revert w. induction tokens as [|t tokens IH]; intros w Hsink Hno.
  - simpl. by rewrite app_nil_r.
  - destruct (sink_Write_ok (line_of t) w Hsink) as (rest & Hw & Hrest).
    assert (strings_Contains t boshcli.detachMarker = false) as Hc.
    { apply strings_Contains_false, Hno. set_solver. }
    unfold result, final. cbn [boshcli.detachedScan]. unfold bind.
    fold (line_of t). rewrite Hw, Hc.
    specialize (IH (set_sink (w_sink w ++ [line_of t]) rest w) Hrest).
    destruct IH as [IH1 IH2]; [set_solver|].
    unfold result, final in IH1, IH2.
    destruct (boshcli.detachedScan flags tokens _) as [[r w'] l].
    simpl in *. split; [done|]. rewrite IH2. by rewrite <- app_assoc.
Qed.

Lemma detachedScan_marker flags pre m post w :
  Forall (λ f, f = None) (w_sink_faults w) →
  (∀ t, t ∈ pre → ¬ mentions t boshcli.detachMarker) →
  mentions m boshcli.detachMarker →
  result (boshcli.detachedScan flags (pre ++ m :: post)) w = None ∧
  w_sink (final (boshcli.detachedScan flags (pre ++ m :: post)) w)
  = w_sink w ++ map line_of (pre ++ [m])
    ++ [bytes_of ("Task started, detaching output" +:+ LF)].
Proof.
  revert w. induction pre as [|t pre IH]; intros w Hsink Hno Hm.
  - destruct (sink_Write_ok (line_of m) w Hsink) as (rest & Hw & Hrest).
    apply strings_Contains_spec in Hm.
    unfold result, final. cbn [app boshcli.detachedScan]. unfold bind.
    fold (line_of m). rewrite Hw, Hm.
    destruct (sink_Write_ok
                (bytes_of ("Task started, detaching output" +:+ LF))
                (set_sink (w_sink w ++ [line_of m]) rest w) Hrest)
      as (rest' & Hw' & _).
    rewrite Hw'. simpl. split; [done|]. by rewrite <- app_assoc.
  - destruct (sink_Write_ok (line_of t) w Hsink) as (rest & Hw & Hrest).
    assert (strings_Contains t boshcli.detachMarker = false) as Hc.
    { apply strings_Contains_false, Hno. set_solver. }
    unfold result, final.
    cbn [app boshcli.detachedScan]. unfold bind.
    fold (line_of t). rewrite Hw, Hc.
    specialize (IH (set_sink (w_sink w ++ [line_of t]) rest w) Hrest).
    destruct IH as [IH1 IH2]; [set_solver|done|].
    unfold result, final in IH1, IH2.
    destruct (boshcli.detachedScan flags (pre ++ m :: post) _)
      as [[r w'] l].
    simpl in *. split; [done|]. rewrite IH2. by rewrite <- !app_assoc.
Qed.
Lemma detachedBoshCommand_started c flags w :
  let proc := boshcli.execCmd c (boshcli.boshPath c) flags (w_fs w) in
  let run := boshcli.detachedBoshCommand c flags in
  result os_fault w = None →
  pr_start proc = None →
  ∃ w', w_sink w' = w_sink w ∧ w_sink_faults w' = w_sink_faults w ∧
        result run w = result (boshcli.detachedScan flags (pr_stdout proc)) w' ∧
        final run w = final (boshcli.detachedScan flags (pr_stdout proc)) w'.
Proof.
  intros proc run Hpipe Hstart. subst proc run.
  exists (final os_fault w). unfold result, final in *.
  unfold boshcli.detachedBoshCommand, boshcli.command, bind, emit, ret,
    get_fs, gets.
  assert (w_fs (os_fault w).1.2 = w_fs w) as Hfs.
  { unfold os_fault. by destruct (w_faults w). }
  assert (w_sink (os_fault w).1.2 = w_sink w ∧
          w_sink_faults (os_fault w).1.2 = w_sink_faults w) as [Hs Hf].
  { unfold os_fault. by destruct (w_faults w). }
  destruct (os_fault w) as [[e w'] l]. simpl in *. subst e.
  rewrite Hfs, Hstart.
  destruct (boshcli.detachedScan flags _ w') as [[r w2] l2]. done.
Qed.
End Detached.

Section Claims4.
Context {St : Type}.
Implicit Types (w : World St) (c : boshcli.CLI).

(** C3. In detached mode, once the process is started (the pipe was
    made and [Start] worked) and with a sink that takes every write, the
    runner forwards the lines of the process's standard output to the
    sink, each followed by a line feed, and returns nil as soon as a
    line mentions [Preparing deployment], after that line and a note
    that it detaches; nothing that the process prints or does later, nor
    its exit, is waited for.  If the output ends and no line mentioned
    it, every line was forwarded and the error returned ends with the
    invoked argument list. *)
Theorem detachedBoshCommand_detaches c flags w :
  let proc := boshcli.execCmd c (boshcli.boshPath c) flags (w_fs w) in
  let run := boshcli.detachedBoshCommand c flags in
  result os_fault w = None →
  pr_start proc = None →
  Forall (λ f, f = None) (w_sink_faults w) →
  (∀ pre m post,
     pr_stdout proc = pre ++ m :: post →
     (∀ t, t ∈ pre → ¬ mentions t "Preparing deployment") →
     mentions m "Preparing deployment" →
     result run w = None ∧
     w_sink (final run w)
     = w_sink w ++ map line_of (pre ++ [m])
       ++ [bytes_of ("Task started, detaching output" +:+ LF)]) ∧
  ((∀ t, t ∈ pr_stdout proc → ¬ mentions t "Preparing deployment") →
   ∃ e, result run w = Some e ∧
        error_msg e
        = "Didn't detect successful task start in BOSH comand: bosh-cli "
          +:+ strings_Join flags " " ∧
        w_sink (final run w) = w_sink w ++ map line_of (pr_stdout proc)).
Proof.
  intros proc run Hpipe Hstart Hsink.
  destruct (detachedBoshCommand_started c flags w Hpipe Hstart)
    as (w' & Hs & Hf & Hr & Hw).
  fold proc run in Hr, Hw. rewrite Hr, Hw, <- Hs. rewrite <- Hf in Hsink.
  split.
  - intros pre m post -> Hpre Hm. by apply detachedScan_marker.
  - intros Hno.
    destruct (detachedScan_no_marker flags (pr_stdout proc) w' Hsink Hno)
      as [H1 H2].
    exists (boshcli.errNoTaskStart flags). by split_and!.
Qed.
End Claims4.

(** A deploy that reaches [Preparing deployment] on its third line: the
    runner returns nil with three lines and its note in the sink, and the
    fourth line is never read. *)
Lemma detachedBoshCommand_detaches_witness :
  let c := fixtures.printingCLI fixtures.deployOutput in
  let w := fixtures.world0 ∅ in
  let run := boshcli.detachedBoshCommand c ["deploy"; "concourse.yml"] in
  (result os_fault w = None ∧
   pr_start (boshcli.execCmd c (boshcli.boshPath c)
               ["deploy"; "concourse.yml"] (w_fs w)) = None ∧
   Forall (λ f, f = None) (w_sink_faults w)) ∧
  result run w = None ∧
  w_sink (final run w)
  = map line_of ["Using environment"; "Task 42";
                 "Preparing deployment: started"]
    ++ [bytes_of ("Task started, detaching output" +:+ LF)].
Proof.
  cbv zeta.
  assert (result os_fault (fixtures.world0 ∅) = None) as H1 by done.
  assert (pr_start (boshcli.execCmd (fixtures.printingCLI fixtures.deployOutput)
            (boshcli.boshPath (fixtures.printingCLI fixtures.deployOutput))
            ["deploy"; "concourse.yml"] (w_fs (fixtures.world0 ∅))) = None)
    as H2 by done.
  assert (Forall (λ f : option error, f = None)
            (w_sink_faults (fixtures.world0 ∅))) as H3 by constructor.
  split; [done|].
  destruct (detachedBoshCommand_detaches
              (fixtures.printingCLI fixtures.deployOutput)
              ["deploy"; "concourse.yml"] (fixtures.world0 ∅) H1 H2 H3)
    as [Hfound _].
  apply (Hfound ["Using environment"; "Task 42"]
           "Preparing deployment: started" ["Updating instance web"]).
  - reflexivity.
  - intros t Ht. apply strings_Contains_false.
    repeat (apply elem_of_cons in Ht as [->|Ht]; [by vm_compute|]).
    by apply elem_of_nil in Ht.
  - apply strings_Contains_spec. by vm_compute.
Defined.


(** ** The stemcell of the GCP environment *)

Section StemcellFacts.
Variable versions : string.
Variable unmarshalOps : bytes → list gcp.Op * option error.
Variable unmarshalString : bytes → string → string * option error.

Lemma versionLoop_skip ops version :
  (∀ op, op ∈ ops → gcp.Path op ≠ gcp.stemcellVersionPath) →
  gcp.versionLoop unmarshalString ops version = (version, None).
Proof.
  induction ops as [|op ops IH]; intros Hno; simpl; [done|].
  rewrite bool_decide_eq_true_2 by (apply Hno; set_solver).
  apply IH. intros o Ho. apply Hno. set_solver.
Qed.

Lemma versionLoop_app pre rest version :
  (∀ op, op ∈ pre → gcp.Path op ≠ gcp.stemcellVersionPath) →
  gcp.versionLoop unmarshalString (pre ++ rest) version
  = gcp.versionLoop unmarshalString rest version.
Proof.
  induction pre as [|op pre IH]; intros Hno; simpl; [done|].
  rewrite bool_decide_eq_true_2 by (apply Hno; set_solver).
  apply IH. intros o Ho. apply Hno. set_solver.
Qed.


(** Whatever the document and the decoder do, the call gives an empty
    result with an error, or the URL of a non-empty version with none. *)
Lemma ConfigureConcourseStemcell_shape e :
  let r := gcp.ConfigureConcourseStemcell versions unmarshalOps
             unmarshalString e in
  (r.1 = "" ∧ r.2 ≠ None) ∨
  (∃ version, version ≠ "" ∧ r = (gcp.stemcellURL version, None)).
Proof.
  intros r. subst r. unfold gcp.ConfigureConcourseStemcell.
  destruct (unmarshalOps _) as [ops [err|]]; [by left|].
  destruct (gcp.versionLoop _ ops "") as [version [err|]]; [by left|].
  case_bool_decide; [by left|]. right. by exists version.
Qed.
End StemcellFacts.


(** ** The S3-backed store *)

Section StoreFacts.
Context {T : Type}.

(** C2. [Store.Get] returns no bytes and a nil error when the object
    store answers that the key does not exist; it returns the error,
    with no bytes, when [GetObject] fails in any other way, and what
    reading the body gives otherwise; so its error is non-nil exactly
    when the transport failed other than by "no such key". *)
Theorem Store_Get_contract (s : @gcp.Store T) key st :
  let got := (gcp.GetObject (gcp.s3 s) (gcp.bucket s) key st).1 in
  let r := (gcp.Get s key st).1 in
  (∀ msg, got.2 = Some (AwsError "NoSuchKey" msg) → r = ([], None)) ∧
  (∀ e, got.2 = Some e → (∀ msg, e ≠ AwsError "NoSuchKey" msg) →
        r = ([], Some e)) ∧
  (got.2 = None → r = (gcp.body_data got.1, gcp.body_err got.1)) ∧
  (r.2 ≠ None ↔
   (∃ e, got.2 = Some e ∧ ∀ msg, e ≠ AwsError "NoSuchKey" msg) ∨
   (got.2 = None ∧ gcp.body_err got.1 ≠ None)).
Proof.
  intros got r. subst got r. unfold gcp.Get.
  destruct (gcp.GetObject _ _ _ _) as [[out err] st']. simpl.
  destruct err as [[m|code m]|]; simpl.
  - split_and!; try done.
    + by intros e [= <-] _.
    + split; [|done]. intros _. left. by exists (PlainError m).
  - unfold gcp.ErrCodeNoSuchKey. case_bool_decide as Hc; simpl.
    + subst code. split_and!; try done.
      * intros e [= <-] H. by destruct (H m).
      * split; [done|]. intros [(e & [= <-] & H)|[? _]]; [|done].
        by destruct (H m).
    + split_and!; try done.
      * intros msg [= -> _]. done.
      * by intros e [= <-] _.
      * split; [|done]. intros _. left. eexists. split; [done|].
        intros msg [= -> _]. done.
  - split_and!; try done. unfold gcp.ioutil_ReadAll. simpl.
    split; [by right | by intros [(? & ? & _)|[_ ?]]].
Qed.
End StoreFacts.

(** The three cases of the store's own tests. *)
Lemma Store_Get_examples :
  let st : gmap string bytes := {["state.json" := bytes_of "my object body"]} in
  (gcp.Get (gcp.NewStore (fixtures.memS3 false) "my bucket") "state.json" st).1
  = (bytes_of "my object body", None) ∧
  (gcp.Get (gcp.NewStore (fixtures.memS3 false) "my bucket") "vars.yaml" st).1
  = ([], None) ∧
  (gcp.Get (gcp.NewStore (fixtures.memS3 true) "my bucket") "state.json" st).1
  = ([], Some (AwsError "InternalError" "try again")).
Proof. cbv zeta. split_and!; by vm_compute. Qed.

(** ** The variables of the manifest *)

Section Vars.
Context {St : Type}.
Implicit Types (w : World St) (c : boshcli.CLI).

End Vars.

(** ** Further runs *)

(** The store holds both artifacts and the binary fails: both are handed
    back to the store as they are, and the caller gets the error of the
    process. *)
Lemma DeleteEnv_uploads_both_after_failure :
  let st : gmap string bytes :=
    <["state.json" := bytes_of "{}"]> (<["vars.yaml" := bytes_of "k: v"]> ∅) in
  let run := boshcli.DeleteEnv fixtures.interpolate fixtures.releases
               fixtures.failingCLI fixtures.memStore fixtures.config
               "secret" "cert" "key" "ca" ∅ in
  result run (fixtures.world0 st) = Some (PlainError "exit status 1") ∧
  EvSet "state.json" (bytes_of "{}") ∈ events run (fixtures.world0 st) ∧
  EvSet "vars.yaml" (bytes_of "k: v") ∈ events run (fixtures.world0 st) ∧
  files (w_fs (final run (fixtures.world0 st))) = ∅.
Proof.
  cbv zeta. split_and!; [by vm_compute | in_trace | in_trace | by vm_compute].
Qed.

(** A sink that refuses the first write: the runner returns the sink's
    error, whatever the process prints afterwards. *)
Lemma detachedBoshCommand_returns_the_sink_error :
  result (boshcli.detachedBoshCommand
            (fixtures.printingCLI fixtures.deployOutput) ["deploy"])
    fixtures.brokenSinkWorld
  = Some (PlainError "broken pipe").
Proof. by vm_compute. Qed.

(** The output ends before the marker: the error names the arguments. *)
Lemma detachedBoshCommand_stalled :
  result (boshcli.detachedBoshCommand
            (fixtures.printingCLI fixtures.stalledOutput)
            ["--non-interactive"; "deploy"; "concourse.yml"])
    (fixtures.world0 ∅)
  = Some (PlainError
            "Didn't detect successful task start in BOSH comand: bosh-cli --non-interactive deploy concourse.yml").
Proof. by vm_compute. Qed.

(** Detaching is for [deploy] only: the same call with another action is
    run in blocking mode. *)
Lemma RunAuthenticatedCommand_modes :
  let run action :=
    boshcli.RunAuthenticatedCommand
      (fixtures.printingCLI fixtures.deployOutput) action "10.0.0.6"
      "secret" "ca" true [] in
  events (run "deploy") (fixtures.world0 ∅)
  = [EvScratch "/tmp/0";
     EvExec Detached
       ["bosh"; "--non-interactive"; "--environment"; "https://10.0.0.6";
        "--ca-cert"; "/tmp/0"; "--client"; "admin"; "--client-secret";
        "secret"; "--deployment"; "concourse"; "deploy"]] ∧
  events (run "recreate") (fixtures.world0 ∅)
  = [EvScratch "/tmp/0";
     EvExec Blocking
       ["bosh"; "--non-interactive"; "--environment"; "https://10.0.0.6";
        "--ca-cert"; "/tmp/0"; "--client"; "admin"; "--client-secret";
        "secret"; "--deployment"; "concourse"; "recreate"]].
Proof. cbv zeta. split; by vm_compute. Qed.

(** * Further properties of the orchestrator and the environment *)

(** ** Building a [CLI] *)

Section NewFacts.
Variable exec_Command : string → list string → FS → ProcResult.

Lemma last_cons_default {A} (x : A) l d d' :
  List.last (x :: l) d = List.last (x :: l) d'.
Proof. revert x. induction l as [|y l IH]; intros x; [done|]. apply (IH y). Qed.

Lemma applyOptions_BOSHPath paths c :
  boshcli.applyOptions (map boshcli.BOSHPath paths) c
  = (Some (boshcli.mkCLI (boshcli.execCmd c)
             (List.last paths (boshcli.boshPath c))), None).
Proof.
  revert c. induction paths as [|p paths IH]; intros c.
  - by destruct c.
  - cbn [map boshcli.applyOptions]. unfold boshcli.BOSHPath at 1.
    rewrite IH. cbn [boshcli.execCmd boshcli.boshPath].
    destruct paths as [|q paths]; [done|].
    by rewrite (last_cons_default q paths p (boshcli.boshPath c)).
Qed.

(** [New] with any number of [BOSHPath] options never fails; the
    binary is the one named by the last option, [bosh] when there is
    none, and the commands are made by [exec.Command]. *)
Theorem New_BOSHPath_last_wins paths :
  boshcli.New exec_Command (map boshcli.BOSHPath paths)
  = (Some (boshcli.mkCLI exec_Command (List.last paths "bosh")), None).
Proof.
  unfold boshcli.New. generalize "bosh".
  induction paths as [|p paths IH]; intros path0; [done|].
  cbn [map boshcli.applyOptions]. unfold boshcli.BOSHPath at 1.
  cbn [boshcli.execCmd]. rewrite IH.
  destruct paths as [|q paths]; [done|].
  by rewrite (last_cons_default q paths p path0).
Qed.

(** Whatever the options do, [New] returns a [CLI] or an error, never
    both and never neither. *)
Theorem New_CLI_or_error ops :
  (boshcli.New exec_Command ops).1 = None
  ↔ (boshcli.New exec_Command ops).2 ≠ None.
Proof.
  unfold boshcli.New. generalize (boshcli.mkCLI exec_Command "bosh").
  induction ops as [|op ops IH]; intros c; simpl.
  - by split.
  - destruct (op c) as [c' [e|]]; [by split|]. apply IH.
Qed.

Lemma applyOptions_app_ok pre rest c c' :
  boshcli.applyOptions pre c = (Some c', None) →
  boshcli.applyOptions (pre ++ rest) c = boshcli.applyOptions rest c'.
Proof.
  revert c. induction pre as [|op pre IH]; intros c; simpl.
  - by intros [= ->].
  - destruct (op c) as [c1 [e|]]; [done|]. apply IH.
Qed.

(** When the download of the binary fails, [New] fails with the error
    of the download, whichever [BOSHPath] options come before and whatever
    options come after: a later option cannot repair it. *)
Theorem New_download_failure download paths rest e :
  download.2 = Some e →
  boshcli.New exec_Command
    (map boshcli.BOSHPath paths ++ boshcli.DownloadBOSH download :: rest)
  = (None, Some e).
Proof.
  intros He. unfold boshcli.New.
  erewrite applyOptions_app_ok by apply applyOptions_BOSHPath.
  simpl. unfold boshcli.DownloadBOSH. destruct download as [p err].
  simpl in He. by subst err.
Qed.
End NewFacts.

Lemma New_download_failure_witness :
  let exec : string → list string → FS → ProcResult :=
    λ _ _ fs, mkProc None [] fs None in
  let download := ("", Some (PlainError "404")) in
  download.2 = Some (PlainError "404") ∧
  boshcli.New exec
    (map boshcli.BOSHPath ["/usr/bin/bosh"]
     ++ boshcli.DownloadBOSH download :: [boshcli.BOSHPath "/opt/bosh"])
  = (None, Some (PlainError "404")).
Proof.
  cbv zeta. split; [reflexivity|].
  by apply (New_download_failure _ ("", Some (PlainError "404"))
              ["/usr/bin/bosh"] [boshcli.BOSHPath "/opt/bosh"]).
Defined.

(** ** Scratch files *)

Section ScratchFacts.
Context {St : Type}.
Implicit Types (w : World St) (store : @boshcli.Store St).

(** [writeTempFile] either succeeds, and then one file that did not
    exist before holds exactly the data while every other file and every
    directory is as it was; or it fails, and then the files are as they
    were: a file that was created and could not be written or closed is
    removed again. *)
Theorem writeTempFile_outcome data w :
  let name := (result (boshcli.writeTempFile data) w).1 in
  let w1 := final (boshcli.writeTempFile data) w in
  match (result (boshcli.writeTempFile data) w).2 with
  | None =>
      fs_exists (w_fs w) name = false ∧
      files (w_fs w1) = <[name := data]> (files (w_fs w)) ∧
      dirs (w_fs w1) = dirs (w_fs w)
  | Some _ => files (w_fs w1) = files (w_fs w)
  end.
Proof.
  intros name w1. subst name w1.
  pose proof (run_eta (boshcli.writeTempFile data) w) as H.
  destruct (result (boshcli.writeTempFile data) w) as [name err].
  apply writeTempFile_spec in H. simpl. destruct err; tauto.
Qed.

(** The deferred upload of an artifact always removes the scratch
    file; it calls [Set] with the content of the file when there is one and
    returns what [Set] returned, and when there is none it returns the
    read error without calling [Set]. *)
Theorem upload_outcome store key path w :
  let run := boshcli.upload store key path in
  files (w_fs (final run w)) = delete path (files (w_fs w)) ∧
  events run w = upload_events key path (files (w_fs w) !! path) ∧
  match files (w_fs w) !! path with
  | Some v =>
      result run w = (boshcli.StoreSet store key v (w_store w)).1
  | None => result run w = Some ErrNotExist
  end.
Proof.
  intros run. subst run.
  pose proof (run_eta (boshcli.upload store key path) w) as H.
  pose proof H as H'. apply upload_spec in H' as [Hev Hfiles].
  split; [done|]. split; [done|]. clear H.
  unfold boshcli.upload. rewrite result_defer, result_bind.
  pose proof (run_eta (ioutil_ReadFile (St:=St) path) w) as Hr.
  destruct (result (ioutil_ReadFile path) w) as [data err].
  apply ioutil_ReadFile_spec in Hr as (Hw & _ & Hd).
  rewrite Hw. destruct (files (w_fs w) !! path) as [v|];
    destruct Hd as [-> ->]; [|done].
  unfold result, boshcli.store_Set, bind, emit, gets, modify, ret. simpl.
  by destruct (boshcli.StoreSet store key v (w_store w)).
Qed.
End ScratchFacts.

(** ** The GCP environment as a director configuration *)

Section DirectorFacts.
Variables (manifest cpi externalIP custom jumpbox template : string).
Variable interpolate :
  string → string → gmap string VarValue → string * option error.
Variable render :
  string → string → gcp.gcpCloudConfigParams → option bytes * option error.

(** When the credentials file can be read, [ConfigureDirectorManifestCPI]
    returns what [yaml.Interpolate] gives for the director manifest, the
    four GCP ops files in their order followed by the custom operations,
    and a map of exactly twelve variables: eleven fields of the
    environment, [subnetwork] being the public one, and the content of the
    credentials file. *)
Theorem ConfigureDirectorManifestCPI_interpolates e fs creds :
  files fs !! gcp.GcpCredentialsJSON e = Some creds →
  ∃ vars,
    gcp.ConfigureDirectorManifestCPI manifest cpi externalIP custom jumpbox
      interpolate e fs
    = interpolate manifest
        ((cpi +:+ externalIP +:+ custom +:+ jumpbox)
         +:+ gcp.CustomOperations e) vars ∧
    dom vars
    = {["internal_cidr"; "internal_gw"; "internal_ip"; "director_name";
        "zone"; "network"; "subnetwork"; "private_subnetwork"; "project_id";
        "gcp_credentials_json"; "external_ip"; "public_key"]} ∧
    vars !! "internal_cidr" = Some (VString (gcp.InternalCIDR e)) ∧
    vars !! "internal_gw" = Some (VString (gcp.InternalGW e)) ∧
    vars !! "internal_ip" = Some (VString (gcp.InternalIP e)) ∧
    vars !! "director_name" = Some (VString (gcp.DirectorName e)) ∧
    vars !! "zone" = Some (VString (gcp.Zone e)) ∧
    vars !! "network" = Some (VString (gcp.Network e)) ∧
    vars !! "subnetwork" = Some (VString (gcp.PublicSubnetwork e)) ∧
    vars !! "private_subnetwork" = Some (VString (gcp.PrivateSubnetwork e)) ∧
    vars !! "project_id" = Some (VString (gcp.ProjectID e)) ∧
    vars !! "gcp_credentials_json" = Some (VString (string_of creds)) ∧
    vars !! "external_ip" = Some (VString (gcp.ExternalIP e)) ∧
    vars !! "public_key" = Some (VString (gcp.PublicKey e)).
Proof.
  intros Hcreds. exists (gcp.manifestVars e creds).
  unfold gcp.ConfigureDirectorManifestCPI. rewrite Hcreds.
  split; [done|]. split.
  { unfold gcp.manifestVars. rewrite !dom_insert_L, dom_empty_L.
    set_solver. }
  split_and!; unfold gcp.manifestVars; by simplify_map_eq.
Qed.

(** [ConfigureDirectorCloudConfig] reads twelve fields of the environment
    and no other: two environments that agree on the zone, the spot flag,
    the two subnetworks, the network and the seven CIDR fields get the same
    cloud config and the same error, whatever the template renderer does. *)
Theorem ConfigureDirectorCloudConfig_reads_twelve_fields e e' :
  gcp.Zone e = gcp.Zone e' →
  gcp.Spot e = gcp.Spot e' →
  gcp.PublicSubnetwork e = gcp.PublicSubnetwork e' →
  gcp.PrivateSubnetwork e = gcp.PrivateSubnetwork e' →
  gcp.Network e = gcp.Network e' →
  gcp.PublicCIDR e = gcp.PublicCIDR e' →
  gcp.PublicCIDRGateway e = gcp.PublicCIDRGateway e' →
  gcp.PublicCIDRStatic e = gcp.PublicCIDRStatic e' →
  gcp.PublicCIDRReserved e = gcp.PublicCIDRReserved e' →
  gcp.PrivateCIDR e = gcp.PrivateCIDR e' →
  gcp.PrivateCIDRGateway e = gcp.PrivateCIDRGateway e' →
  gcp.PrivateCIDRReserved e = gcp.PrivateCIDRReserved e' →
  gcp.ConfigureDirectorCloudConfig template render e
  = gcp.ConfigureDirectorCloudConfig template render e'.
Proof.
  intros. unfold gcp.ConfigureDirectorCloudConfig.
  repeat match goal with H : _ e = _ e' |- _ => rewrite H; clear H end.
  reflexivity.
Qed.

End DirectorFacts.

Lemma ConfigureDirectorManifestCPI_interpolates_witness :
  let fs := mkFS {["/creds.json" := bytes_of "{}"]} ∅ in
  files fs !! gcp.GcpCredentialsJSON fixtures.gcpEnvironment
  = Some (bytes_of "{}") ∧
  ∃ vars,
    gcp.ConfigureDirectorManifestCPI "manifest" "a" "b" "c" "d"
      fixtures.interpolate fixtures.gcpEnvironment fs
    = fixtures.interpolate "manifest" ("abcd" +:+ "") vars ∧
    vars !! "subnetwork" = Some (VString "public") ∧
    vars !! "gcp_credentials_json" = Some (VString "{}").
Proof.
  cbv zeta.
  assert (files (mkFS {["/creds.json" := bytes_of "{}"]} ∅)
          !! gcp.GcpCredentialsJSON fixtures.gcpEnvironment
          = Some (bytes_of "{}")) as Hcreds0 by reflexivity.
  split; [exact Hcreds0|].
  destruct (ConfigureDirectorManifestCPI_interpolates "manifest" "a" "b" "c"
              "d" fixtures.interpolate fixtures.gcpEnvironment
              (mkFS {["/creds.json" := bytes_of "{}"]} ∅) (bytes_of "{}")
              Hcreds0)
    as (vars & H & _ & _ & _ & _ & _ & _ & _ & Hsub & _ & _ & Hcreds & _).
  exists vars. by split_and!.
Defined.

Lemma ConfigureDirectorCloudConfig_reads_twelve_fields_witness :
  let e := fixtures.gcpEnvironment in
  let e' := gcp.mkEnvironment "- type: remove" "other" "1.1.1.1" "/x.json"
              "10.9.0.0/24" "10.9.0.1" "10.9.0.6" "net" "10.0.1.0/24"
              "10.0.1.1" "10.0.1.2" "private" "other-project" "10.0.2.0/24"
              "10.0.2.1" "10.0.2.2" "10.0.2.3" "ssh-rsa other" "public"
              false "t" "europe-west1-b" in
  let render := λ (name tmpl : string) (p : gcp.gcpCloudConfigParams),
                  (Some (bytes_of (gcp.cc_Zone p)), None) in
  gcp.ConfigureDirectorCloudConfig "template" render e
  = gcp.ConfigureDirectorCloudConfig "template" render e'.
Proof.
  cbv zeta.
  apply (ConfigureDirectorCloudConfig_reads_twelve_fields "template");
    reflexivity.
Defined.

(** ** Failures before anything is touched *)

Section EarlyFailures.
Context {St : Type}.
Implicit Types (w : World St) (c : boshcli.CLI).
Variable interp :
  string → string → gmap string Value → string * option error.
Variable res : ResourceID → Resource.

(** When the configuration of the environment cannot be produced, or the
    manifest cannot be interpolated, the operation returns that error and
    has done nothing: the world is as it was, the store was not asked for
    anything, no scratch file was made and the binary was not launched.
    This holds for [xEnv] (hence [CreateEnv] and [DeleteEnv]),
    [UpdateCloudConfig] and [UploadConcourseStemcell]. *)
Theorem configuration_failure_touches_nothing c action
    (store : @boshcli.Store St) config ip password cert key ca tags w :
  (∀ e, (boshcli.ConfigureDirectorManifestCPI config (w_fs w)).2 = Some e →
        boshcli.xEnv interp res c action store config password cert key ca
          tags w = (Some e, w, [])) ∧
  (∀ m e, boshcli.ConfigureDirectorManifestCPI config (w_fs w) = (m, None) →
          (interp m "" (boshcli.xEnv_vars res password cert key ca tags)).2
          = Some e →
          boshcli.xEnv interp res c action store config password cert key ca
            tags w = (Some e, w, [])) ∧
  (∀ e, (boshcli.ConfigureDirectorCloudConfig config (w_fs w)).2 = Some e →
        boshcli.UpdateCloudConfig c config ip password ca w
        = (Some e, w, [])) ∧
  (∀ e, (boshcli.ConfigureConcourseStemcell config (w_fs w)).2 = Some e →
        boshcli.UploadConcourseStemcell c config ip password ca w
        = (Some e, w, [])).
Proof.
  split_and!.
  - intros e He. unfold boshcli.xEnv, boshcli.call_config, bind, get_fs,
      gets, ret. simpl.
    destruct (boshcli.ConfigureDirectorManifestCPI config (w_fs w))
      as [m err]. simpl in He. by subst err.
  - intros m e Hm He. unfold boshcli.xEnv, boshcli.call_config, bind,
      get_fs, gets, ret. simpl. rewrite Hm.
    destruct (interp m "" _) as [m' err]. simpl in He. by subst err.
  - intros e He. unfold boshcli.UpdateCloudConfig, boshcli.call_config,
      bind, get_fs, gets, ret. simpl.
    destruct (boshcli.ConfigureDirectorCloudConfig config (w_fs w))
      as [m err]. simpl in He. by subst err.
  - intros e He. unfold boshcli.UploadConcourseStemcell,
      boshcli.call_config, bind, get_fs, gets, ret. simpl.
    destruct (boshcli.ConfigureConcourseStemcell config (w_fs w))
      as [m err]. simpl in He. by subst err.
Qed.

(** When the store cannot be read for [state.json], a pass through [xEnv]
    returns the error of [Get] after that one call: nothing was written
    to the file system, [Set] was not called and the binary was not
    launched. *)
Theorem xEnv_state_Get_failure c action (store : @boshcli.Store St) config
    password cert key ca tags w m m' e :
  let run := boshcli.xEnv interp res c action store config password cert
               key ca tags in
  boshcli.ConfigureDirectorManifestCPI config (w_fs w) = (m, None) →
  interp m "" (boshcli.xEnv_vars res password cert key ca tags)
  = (m', None) →
  (boshcli.StoreGet store "state.json" (w_store w)).1.2 = Some e →
  result run w = Some e ∧
  events run w = [EvGet "state.json" false] ∧
  w_fs (final run w) = w_fs w.
Proof.
  intros run Hm Hi Hg. subst run.
  unfold result, events, final, boshcli.xEnv, boshcli.call_config,
    boshcli.writeToDisk, boshcli.store_Get, boshcli.stateFilename, bind,
    get_fs, gets, modify, emit, ret.
  simpl. rewrite Hm, Hi.
  destruct (boshcli.StoreGet store "state.json" (w_store w))
    as [[data err] st]. simpl in Hg. subst err. done.
Qed.
End EarlyFailures.

Lemma configuration_failure_touches_nothing_witness :
  let w := fixtures.world0 ∅ in
  boshcli.DeleteEnv fixtures.interpolate fixtures.releases
    fixtures.failingCLI fixtures.memStore fixtures.failingConfig "secret"
    "cert" "key" "ca" ∅ w
  = (Some (PlainError "no credentials"), w, []).
Proof.
  cbv zeta.
  apply (proj1 (configuration_failure_touches_nothing fixtures.interpolate
                  fixtures.releases fixtures.failingCLI "delete-env"
                  fixtures.memStore fixtures.failingConfig "10.0.0.6"
                  "secret" "cert" "key" "ca" ∅ (fixtures.world0 ∅))).
  reflexivity.
Defined.

Lemma xEnv_state_Get_failure_witness :
  let w := fixtures.world0 ∅ in
  let run := boshcli.CreateEnv fixtures.interpolate fixtures.releases
               fixtures.failingCLI fixtures.brokenStore fixtures.config
               "secret" "cert" "key" "ca" ∅ in
  result run w = Some (PlainError "connection refused") ∧
  events run w = [EvGet "state.json" false] ∧
  w_fs (final run w) = w_fs w.
Proof.
  cbv zeta.
  apply (xEnv_state_Get_failure fixtures.interpolate fixtures.releases
           fixtures.failingCLI "create-env" fixtures.brokenStore
           fixtures.config "secret" "cert" "key" "ca" ∅ (fixtures.world0 ∅)
           "manifest" "manifest" (PlainError "connection refused"));
    reflexivity.
Defined.

(** ** The S3-backed store under the orchestrator *)

Section StoreUse.
Context {T : Type}.
Implicit Types (s : @gcp.Store T) (w : World T).

(** Over an object store that gives back what was put, a [Set] that
    succeeded followed by a [Get] of the same key returns the value set,
    with a nil error. *)
Theorem Store_Set_then_Get s key value st st' :
  gives_back (gcp.s3 s) →
  gcp.Set_ s key value st = (None, st') →
  (gcp.Get s key st').1 = (value, None).
Proof.
  intros Hback Hset. unfold gcp.Set_ in Hset.
  destruct (Hback _ _ _ _ _ Hset) as [st'' Hget].
  unfold gcp.Get. by rewrite Hget.
Qed.

Lemma Get_no_such_key s key st msg :
  (gcp.GetObject (gcp.s3 s) (gcp.bucket s) key st).1.2
  = Some (AwsError "NoSuchKey" msg) →
  (gcp.Get s key st).1 = ([], None).
Proof.
  unfold gcp.Get. destruct (gcp.GetObject _ _ _ _) as [[out err] st'].
  simpl. by intros ->.
Qed.

Lemma Get_other_error s key st e :
  (gcp.GetObject (gcp.s3 s) (gcp.bucket s) key st).1.2 = Some e →
  (∀ msg, e ≠ AwsError "NoSuchKey" msg) →
  (gcp.Get s key st).1 = ([], Some e).
Proof.
  unfold gcp.Get. destruct (gcp.GetObject _ _ _ _) as [[out err] st'].
  simpl. intros -> Hother. destruct e as [m|code m]; simpl; [done|].
  unfold gcp.ErrCodeNoSuchKey. case_bool_decide as Hc; [|done].
  subst code. by destruct (Hother m).
Qed.

(** Hydration over the S3-backed store.  A key that the bucket does not
    have is hydrated like absent state: a directory is made and the path
    below it is handed out, with no file there; the only way to fail is
    that the directory cannot be made.  Any other failure of [GetObject]
    ends hydration with that error after the one call, the file system
    untouched. *)
Theorem writeToDisk_over_S3 s key w :
  let got := (gcp.GetObject (gcp.s3 s) (gcp.bucket s) key (w_store w)).1 in
  let run := boshcli.writeToDisk (gcp.asStore s) key in
  (∀ msg, got.2 = Some (AwsError "NoSuchKey" msg) →
     match (result run w).2 with
     | Some _ =>
         events run w = [EvGet key true] ∧ w_fs (final run w) = w_fs w
     | None =>
         ∃ d, (result run w).1.1 = d +:+ "/" +:+ key ∧
              events run w
              = [EvGet key true; EvMkdir d;
                 EvHydrated key (d +:+ "/" +:+ key)] ∧
              fs_exists (w_fs w) d = false ∧
              w_fs (final run w) = fs_mkdir d (w_fs w)
     end) ∧
  (∀ e, got.2 = Some e → (∀ msg, e ≠ AwsError "NoSuchKey" msg) →
     (result run w).2 = Some e ∧
     events run w = [EvGet key false] ∧
     w_fs (final run w) = w_fs w).
Proof.
  intros got run. subst got run.
  split.
  - intros msg Hgot. pose proof (Get_no_such_key _ _ _ _ Hgot) as Hno.
    pose proof (run_eta (boshcli.writeToDisk (gcp.asStore s) key) w) as H.
    destruct (result (boshcli.writeToDisk (gcp.asStore s) key) w)
      as [[path up] err].
    generalize dependent (events (boshcli.writeToDisk (gcp.asStore s) key) w).
    generalize dependent (final (boshcli.writeToDisk (gcp.asStore s) key) w).
    intros w1 l H. simpl.
    unfold boshcli.writeToDisk in H.
    apply bind_inv in H as ([data gerr] & w0 & l0 & l1 & Hget & Hk & ->).
    apply store_Get_spec in Hget as (-> & Hfs0 & Hget).
    change (boshcli.StoreGet (gcp.asStore s) key (w_store w))
      with (gcp.Get s key (w_store w)) in Hget.
    rewrite Hno in Hget. inversion Hget; subst; clear Hget.
    cbv beta iota in Hk.
    apply bind_inv in Hk as ([p perr] & w2 & l2 & l3 & Hdir & Hk & ->).
    apply bind_inv in Hdir as ([d derr] & w3 & l4 & l5 & Hdir & Hret & ->).
    apply ioutil_TempDir_spec in Hdir.
    inversion Hret; subst; clear Hret.
    destruct perr as [pe|]; cbv beta iota in Hk.
    + inversion Hk; subst; clear Hk. destruct Hdir as (-> & Hd & _).
      simpl. split; [done | congruence].
    + destruct Hdir as (-> & Hfresh & Hd & Hne).
      unfold bind, emit, ret in Hk. inversion Hk; subst; clear Hk.
      exists d. rewrite filepath_Join_nonempty by done. simpl.
      split_and!; try done; congruence.
  - intros e Hgot Hother.
    pose proof (Get_other_error _ _ _ _ Hgot Hother) as Herr.
    unfold result, events, final, boshcli.writeToDisk, boshcli.store_Get,
      bind, gets, modify, emit, ret.
    change (boshcli.StoreGet (gcp.asStore s) key (w_store w))
      with (gcp.Get s key (w_store w)).
    destruct (gcp.Get s key (w_store w)) as [[data err] st].
    simpl in Herr. inversion Herr; subst. done.
Qed.
End StoreUse.

Lemma memS3_gives_back : gives_back (fixtures.memS3 false).
Proof.
  intros bucket key value st st' [= <-]. exists (<[key := value]> st).
  simpl. by rewrite lookup_insert_eq.
Qed.

Lemma Store_Set_then_Get_witness :
  let s := gcp.NewStore (fixtures.memS3 false) "bucket" in
  (gives_back (gcp.s3 s) ∧
   gcp.Set_ s "state.json" (bytes_of "{}") ∅
   = (None, {["state.json" := bytes_of "{}"]})) ∧
  (gcp.Get s "state.json" {["state.json" := bytes_of "{}"]}).1
  = (bytes_of "{}", None).
Proof.
  cbv zeta. split; [split; [exact memS3_gives_back | reflexivity]|].
  apply (Store_Set_then_Get (gcp.NewStore (fixtures.memS3 false) "bucket")
           "state.json" (bytes_of "{}") ∅
           {["state.json" := bytes_of "{}"]} memS3_gives_back).
  reflexivity.
Defined.

(** ** Hydration followed by the upload *)

Lemma append_ne s t : t ≠ "" → s ≠ s +:+ t.
Proof.
  intros Ht. induction s as [|a s IH].
  - rewrite append_nil_l. congruence.
  - rewrite append_cons. congruence.
Qed.

Section HydrateUpload.
Context {St : Type}.
Implicit Types (w : World St) (store : @boshcli.Store St).

Lemma os_Remove_file name w :
  is_Some (files (w_fs w) !! name) →
  w_fs (final (os_Remove name) w) = fs_unlink name (w_fs w).
Proof.
  intros H. unfold final, os_Remove, bind, get_fs, gets, with_fs, modify,
    ret. simpl. by rewrite bool_decide_eq_true_2.
Qed.

Lemma os_Remove_other_dir name w d :
  d ∈ dirs (w_fs w) → d ≠ name → d ∈ dirs (w_fs (final (os_Remove name) w)).
Proof.
  intros Hd Hne. unfold final, os_Remove, bind, get_fs, gets, with_fs,
    modify, ret. simpl.
  repeat case_bool_decide; try destruct (fs_has_child _ _); simpl;
    set_solver.
Qed.

Lemma upload_final store key path w :
  ∃ w', w_fs w' = w_fs w ∧
        final (boshcli.upload store key path) w = final (os_Remove path) w'.
Proof.
  unfold boshcli.upload, final, defer_.
  destruct (bind _ _ w) as [[r w'] l] eqn:Hbody.
  exists w'. split; [|by destruct (os_Remove path w') as [[? ?] ?]].
  apply bind_inv in Hbody as ([data err] & w0 & l0 & l1 & Hread & Hk & _).
  apply ioutil_ReadFile_spec in Hread as (-> & _ & _).
  destruct err; cbv beta iota in Hk.
  - by inversion Hk.
  - by apply store_Set_spec in Hk as [_ ?].
Qed.

(** State that the store holds goes through the disk unchanged.  When
    [Get] gave bytes and hydration succeeded, running the upload that
    hydration returned, with nothing in between, reads those bytes back,
    calls [Set] with them and leaves the file system as it was before
    hydration. *)
Theorem hydrate_upload_round_trip store key w :
  let hydrate := boshcli.writeToDisk store key in
  let path := (result hydrate w).1.1 in
  let upload := (result hydrate w).1.2 in
  let data := (boshcli.StoreGet store key (w_store w)).1.1 in
  (result hydrate w).2 = None →
  data ≠ [] →
  events upload (final hydrate w)
  = [EvReadFile path (Some data); EvSet key data] ∧
  w_fs (final upload (final hydrate w)) = w_fs w.
Proof.
  intros hydrate path upload data Hok Hdata. subst hydrate path upload data.
  pose proof (run_eta (boshcli.writeToDisk store key) w) as H.
  destruct (result (boshcli.writeToDisk store key) w) as [[path up] err].
  simpl in Hok. subst err. simpl.
  apply writeToDisk_spec in H as (-> & data & st & Hget & H).
  rewrite Hget in Hdata |- *. simpl in Hdata |- *.
  destruct data as [|b data]; [done|].
  destruct H as (_ & Hfresh & Hfiles & Hdirs).
  apply fs_exists_false in Hfresh as [Hnone _].
  set (w1 := final (boshcli.writeToDisk store key) w) in *.
  assert (files (w_fs w1) !! path = Some (b :: data)) as Hat.
  { rewrite Hfiles. apply lookup_insert_eq. }
  split.
  - pose proof (run_eta (boshcli.upload store key path) w1) as Hup.
    apply upload_spec in Hup as [-> _]. by rewrite Hat.
  - destruct (upload_final store key path w1) as (w' & Hfs & ->).
    rewrite os_Remove_file by (rewrite Hfs, Hat; by eexists).
    rewrite Hfs. unfold fs_unlink. rewrite Hfiles, Hdirs.
    rewrite delete_insert_eq, delete_id by done. by destruct (w_fs w).
Qed.

(** The directory made for absent state is never removed.  When [Get]
    gave no bytes and hydration succeeded, the path handed out lies in a
    directory that did not exist before; after the upload that hydration
    returned has run, no file is at the path, and the directory is still
    there. *)
Theorem absent_state_leaves_its_directory store key w :
  let hydrate := boshcli.writeToDisk store key in
  let path := (result hydrate w).1.1 in
  let upload := (result hydrate w).1.2 in
  (result hydrate w).2 = None →
  (boshcli.StoreGet store key (w_store w)).1.1 = [] →
  ∃ dir, path = dir +:+ "/" +:+ key ∧
         (dir ∉ dirs (w_fs w)) ∧
         dir ∈ dirs (w_fs (final upload (final hydrate w))) ∧
         files (w_fs (final upload (final hydrate w))) !! path = None.
Proof.
  intros hydrate path upload Hok Hdata. subst hydrate path upload.
  pose proof (run_eta (boshcli.writeToDisk store key) w) as H.
  destruct (result (boshcli.writeToDisk store key) w) as [[path up] err].
  simpl in Hok. subst err. simpl.
  apply writeToDisk_spec in H as (-> & data & st & Hget & H).
  rewrite Hget in Hdata. simpl in Hdata. subst data.
  destruct H as (d & _ & -> & Hfresh & Hfs).
  apply fs_exists_false in Hfresh as [_ Hnodir].
  set (w1 := final (boshcli.writeToDisk store key) w) in *.
  exists d. split_and!; try done.
  - destruct (upload_final store key (d +:+ "/" +:+ key) w1)
      as (w' & Hfs' & ->).
    apply os_Remove_other_dir.
    + rewrite Hfs', Hfs. simpl. set_solver.
    + by apply append_ne.
  - pose proof (run_eta (boshcli.upload store key (d +:+ "/" +:+ key)) w1)
      as Hup.
    apply upload_spec in Hup as [_ ->]. apply lookup_delete_eq.
Qed.
End HydrateUpload.

Lemma hydrate_upload_round_trip_witness :
  let store := fixtures.memStore in
  let w := fixtures.world0 (<["state.json" := bytes_of "{}"]> ∅) in
  let hydrate := boshcli.writeToDisk store "state.json" in
  events (result hydrate w).1.2 (final hydrate w)
  = [EvReadFile "/tmp/0" (Some (bytes_of "{}"));
     EvSet "state.json" (bytes_of "{}")] ∧
  w_fs (final (result hydrate w).1.2 (final hydrate w)) = w_fs w.
Proof.
  cbv zeta.
  pose proof (hydrate_upload_round_trip fixtures.memStore "state.json"
                (fixtures.world0 (<["state.json" := bytes_of "{}"]> ∅)))
    as H.
  cbv zeta in H.
  destruct H as [H1 H2]; [by vm_compute | by vm_compute |].
  split; [|exact H2].
  etransitivity; [exact H1 | by vm_compute].
Defined.

Lemma absent_state_leaves_its_directory_witness :
  let store := fixtures.memStore in
  let w := fixtures.world0 ∅ in
  let hydrate := boshcli.writeToDisk store "state.json" in
  ∃ dir, (result hydrate w).1.1 = dir +:+ "/" +:+ "state.json" ∧
         (dir ∉ dirs (w_fs w)) ∧
         dir ∈ dirs (w_fs (final (result hydrate w).1.2 (final hydrate w))) ∧
         files (w_fs (final (result hydrate w).1.2 (final hydrate w)))
         !! (result hydrate w).1.1 = None.
Proof.
  cbv zeta.
  pose proof (absent_state_leaves_its_directory fixtures.memStore
                "state.json" (fixtures.world0 ∅)) as H.
  cbv zeta in H. apply H; by vm_compute.
Defined.

(** ** More on the stemcell of the GCP environment *)

Section StemcellMore.
Variable versions : string.
Variable unmarshalOps : bytes → list gcp.Op * option error.
Variable unmarshalString : bytes → string → string * option error.

Lemma versionLoop_filter ops version :
  gcp.versionLoop unmarshalString ops version
  = gcp.versionLoop unmarshalString
      (filter (λ op, gcp.Path op = gcp.stemcellVersionPath) ops) version.
Proof.
  revert version. induction ops as [|op ops IH]; intros version; [done|].
  destruct (decide (gcp.Path op = gcp.stemcellVersionPath)) as [Hp|Hp].
  - rewrite filter_cons_True by done. simpl.
    rewrite bool_decide_eq_false_2 by (intros H; by apply H).
    destruct (unmarshalString _ _) as [v [e|]]; [done|]. apply IH.
  - rewrite filter_cons_False by done. simpl.
    rewrite bool_decide_eq_true_2 by done. apply IH.
Qed.

(** Only the entries at the path of the xenial stemcell version count:
    dropping every other entry from the decoded document gives the same
    URL or the same error, and the environment the method is called on
    plays no part. *)
Theorem ConfigureConcourseStemcell_other_entries_ignored e e' :
  let matching := filter (λ op, gcp.Path op
                                = "/stemcells/alias=xenial/version") in
  gcp.ConfigureConcourseStemcell versions unmarshalOps unmarshalString e
  = gcp.ConfigureConcourseStemcell versions
      (λ doc, ((matching (unmarshalOps doc).1), (unmarshalOps doc).2))
      unmarshalString e'.
Proof.
  intros matching. subst matching. unfold gcp.ConfigureConcourseStemcell.
  destruct (unmarshalOps (bytes_of versions)) as [ops [err|]]; [done|].
  simpl. by rewrite versionLoop_filter.
Qed.


(** With two entries at the path of the xenial stemcell version the later
    one decides: its value is decoded into the variable that holds the
    version of the earlier one, and the URL is made from the result. *)
Theorem ConfigureConcourseStemcell_last_entry_wins e pre op1 mid op2 post
    v1 v2 :
  unmarshalOps (bytes_of versions)
  = (pre ++ op1 :: mid ++ op2 :: post, None) →
  (∀ o, o ∈ pre ++ mid ++ post →
        gcp.Path o ≠ "/stemcells/alias=xenial/version") →
  gcp.Path op1 = "/stemcells/alias=xenial/version" →
  gcp.Path op2 = "/stemcells/alias=xenial/version" →
  unmarshalString (gcp.Value op1) "" = (v1, None) →
  unmarshalString (gcp.Value op2) v1 = (v2, None) →
  gcp.ConfigureConcourseStemcell versions unmarshalOps unmarshalString e
  = if decide (v2 = "") then ("", Some gcp.errNoStemcell)
    else (gcp.stemcellURL v2, None).
Proof.
  intros Hdoc Hno Hop1 Hop2 Hdec1 Hdec2.
  unfold gcp.ConfigureConcourseStemcell.
  rewrite Hdoc, versionLoop_app by (intros o Ho; apply Hno; set_solver).
  simpl. rewrite bool_decide_eq_false_2 by (intros H; by apply H).
  rewrite Hdec1, versionLoop_app by (intros o Ho; apply Hno; set_solver).
  simpl. rewrite bool_decide_eq_false_2 by (intros H; by apply H).
  rewrite Hdec2, versionLoop_skip by (intros o Ho; apply Hno; set_solver).
  destruct (decide (v2 = "")) as [->|Hne]; [done|].
  by rewrite bool_decide_eq_false_2.
Qed.
End StemcellMore.


Lemma ConfigureConcourseStemcell_last_entry_wins_witness :
  let ops := [gcp.mkOp "/stemcells/alias=xenial/version"
                (fixtures.jsonString "5");
              gcp.mkOp "/releases/name=bpm/version"
                (fixtures.jsonString "1.0.0");
              gcp.mkOp "/stemcells/alias=xenial/version"
                (fixtures.jsonString "6")] in
  gcp.ConfigureConcourseStemcell "[...]" (fixtures.decodeOps ops)
    fixtures.decodeString fixtures.gcpEnvironment
  = (gcp.stemcellURL "6", None).
Proof.
  cbv zeta.
  apply (ConfigureConcourseStemcell_last_entry_wins "[...]" _
           fixtures.decodeString fixtures.gcpEnvironment []
           (gcp.mkOp "/stemcells/alias=xenial/version"
              (fixtures.jsonString "5"))
           [gcp.mkOp "/releases/name=bpm/version"
              (fixtures.jsonString "1.0.0")]
           (gcp.mkOp "/stemcells/alias=xenial/version"
              (fixtures.jsonString "6"))
           [] "5" "6").
  - reflexivity.
  - intros o Ho.
    repeat (apply elem_of_cons in Ho as [->|Ho]; [by vm_compute|]).
    by apply elem_of_nil in Ho.
  - reflexivity.
  - reflexivity.
  - by vm_compute.
  - by vm_compute.
Defined.

(** ** More on the detached runner *)

Section DetachedMore.
Context {St : Type}.
Implicit Types (w : World St) (c : boshcli.CLI).

Lemma detachedScan_prefix flags pre tokens faults w :
  w_sink_faults w = replicate (length pre) None ++ faults →
  (∀ t, t ∈ pre → ¬ mentions t boshcli.detachMarker) →
  ∃ w', w_sink w' = w_sink w ++ map line_of pre ∧
        w_sink_faults w' = faults ∧
        result (boshcli.detachedScan flags (pre ++ tokens)) w
        = result (boshcli.detachedScan flags tokens) w' ∧
        final (boshcli.detachedScan flags (pre ++ tokens)) w
        = final (boshcli.detachedScan flags tokens) w'.
Proof.
  revert w. induction pre as [|t pre IH]; intros w Hf Hno.
  - exists w. simpl. by rewrite app_nil_r.
  - assert (strings_Contains t boshcli.detachMarker = false) as Hc.
    { apply strings_Contains_false, Hno. set_solver. }
    simpl in Hf.
    destruct (IH (set_sink (w_sink w ++ [line_of t])
                    (replicate (length pre) None ++ faults) w))
      as (w' & Hs & Hf' & Hr & Hw); [done | set_solver |].
    exists w'. split_and!; [|done| |].
    + rewrite Hs. simpl. by rewrite <- app_assoc.
    + rewrite <- Hr. unfold result. cbn [app boshcli.detachedScan].
      unfold bind, sink_Write. fold (line_of t). rewrite Hf, Hc. simpl.
      by destruct (boshcli.detachedScan flags (pre ++ tokens) _)
        as [[? ?] ?].
    + rewrite <- Hw. unfold final. cbn [app boshcli.detachedScan].
      unfold bind, sink_Write. fold (line_of t). rewrite Hf, Hc. simpl.
      by destruct (boshcli.detachedScan flags (pre ++ tokens) _)
        as [[? ?] ?].
Qed.

(** When the sink refuses a line, the detached runner stops there and
    returns the error of the sink: the lines before it, none of which
    mentioned [Preparing deployment], were forwarded, the refused line and
    what follows it were not, even if the refused line is the one that
    mentions it. *)
Theorem detachedBoshCommand_sink_failure c flags w pre t post e rest :
  let proc := boshcli.execCmd c (boshcli.boshPath c) flags (w_fs w) in
  let run := boshcli.detachedBoshCommand c flags in
  result os_fault w = None →
  pr_start proc = None →
  pr_stdout proc = pre ++ t :: post →
  (∀ t, t ∈ pre → ¬ mentions t "Preparing deployment") →
  w_sink_faults w = replicate (length pre) None ++ Some e :: rest →
  result run w = Some e ∧
  w_sink (final run w) = w_sink w ++ map line_of pre.
Proof.
  intros proc run Hpipe Hstart Hout Hno Hf.
  destruct (detachedBoshCommand_started c flags w Hpipe Hstart)
    as (w0 & Hs0 & Hf0 & Hr & Hw).
  fold proc run in Hr, Hw. rewrite Hr, Hw, Hout. rewrite <- Hf0 in Hf.
  destruct (detachedScan_prefix flags pre (t :: post) (Some e :: rest) w0
              Hf Hno) as (w' & Hs & Hf' & -> & ->).
  unfold result, final. cbn [boshcli.detachedScan].
  unfold bind, sink_Write. rewrite Hf'. simpl.
  split; [done|]. by rewrite Hs, Hs0.
Qed.

(** The note that the runner detaches is written without looking at the
    outcome: when the sink takes every line up to the one that mentions
    [Preparing deployment] and refuses the note, the runner still returns
    nil. *)
Theorem detachedBoshCommand_ignores_the_note_error c flags w pre m post e
    rest :
  let proc := boshcli.execCmd c (boshcli.boshPath c) flags (w_fs w) in
  let run := boshcli.detachedBoshCommand c flags in
  result os_fault w = None →
  pr_start proc = None →
  pr_stdout proc = pre ++ m :: post →
  (∀ t, t ∈ pre → ¬ mentions t "Preparing deployment") →
  mentions m "Preparing deployment" →
  w_sink_faults w = replicate (length pre) None ++ None :: Some e :: rest →
  result run w = None ∧
  w_sink (final run w) = w_sink w ++ map line_of (pre ++ [m]).
Proof.
  intros proc run Hpipe Hstart Hout Hno Hm Hf.
  destruct (detachedBoshCommand_started c flags w Hpipe Hstart)
    as (w0 & Hs0 & Hf0 & Hr & Hw).
  fold proc run in Hr, Hw. rewrite Hr, Hw, Hout. rewrite <- Hf0 in Hf.
  destruct (detachedScan_prefix flags pre (m :: post)
              (None :: Some e :: rest) w0 Hf Hno)
    as (w' & Hs & Hf' & -> & ->).
  assert (strings_Contains m boshcli.detachMarker = true) as Hc
    by (by apply strings_Contains_spec).
  unfold result, final. cbn [boshcli.detachedScan].
  unfold bind. rewrite Hc. unfold sink_Write. rewrite Hf'. simpl.
  split; [done|]. rewrite Hs, Hs0, map_app. simpl. by rewrite <- app_assoc.
Qed.

(** When the pipe cannot be made or the process does not start, the
    detached runner returns that error; nothing was written to the sink
    and the file system is as it was. *)
Theorem detachedBoshCommand_not_started c flags w e :
  let proc := boshcli.execCmd c (boshcli.boshPath c) flags (w_fs w) in
  let run := boshcli.detachedBoshCommand c flags in
  result os_fault w = Some e ∨
  (result os_fault w = None ∧ pr_start proc = Some e) →
  result run w = Some e ∧
  w_sink (final run w) = w_sink w ∧
  w_fs (final run w) = w_fs w.
Proof.
  intros proc run H. subst proc run.
  unfold result, final, boshcli.detachedBoshCommand, boshcli.command, bind,
    emit, ret, get_fs, gets in *.
  unfold os_fault in *. destruct (w_faults w) as [|f faults]; simpl in *.
  - destruct H as [H|[_ H]]; [done|]. by rewrite H.
  - destruct H as [H|[H1 H2]]; subst f; simpl; [done|]. by rewrite H2.
Qed.
End DetachedMore.

Lemma detachedBoshCommand_sink_failure_witness :
  let c := fixtures.printingCLI fixtures.deployOutput in
  let w := mkWorld (mkFS ∅ ∅) 0 [] (∅ : gmap string bytes) [] []
             [None; None; Some (PlainError "broken pipe")] in
  let run := boshcli.detachedBoshCommand c ["deploy"] in
  result run w = Some (PlainError "broken pipe") ∧
  w_sink (final run w) = map line_of ["Using environment"; "Task 42"].
Proof.
  cbv zeta.
  apply (detachedBoshCommand_sink_failure
           (fixtures.printingCLI fixtures.deployOutput) ["deploy"]
           (mkWorld (mkFS ∅ ∅) 0 [] (∅ : gmap string bytes) [] []
              [None; None; Some (PlainError "broken pipe")])
           ["Using environment"; "Task 42"] "Preparing deployment: started"
           ["Updating instance web"] (PlainError "broken pipe") []).
  - reflexivity.
  - reflexivity.
  - reflexivity.
  - intros t Ht. apply strings_Contains_false.
    repeat (apply elem_of_cons in Ht as [->|Ht]; [by vm_compute|]).
    by apply elem_of_nil in Ht.
  - reflexivity.
Defined.

Lemma detachedBoshCommand_ignores_the_note_error_witness :
  let c := fixtures.printingCLI fixtures.deployOutput in
  let w := mkWorld (mkFS ∅ ∅) 0 [] (∅ : gmap string bytes) [] []
             [None; None; None; Some (PlainError "broken pipe")] in
  let run := boshcli.detachedBoshCommand c ["deploy"] in
  result run w = None ∧
  w_sink (final run w)
  = map line_of ["Using environment"; "Task 42";
                 "Preparing deployment: started"].
Proof.
  cbv zeta.
  apply (detachedBoshCommand_ignores_the_note_error
           (fixtures.printingCLI fixtures.deployOutput) ["deploy"]
           (mkWorld (mkFS ∅ ∅) 0 [] (∅ : gmap string bytes) [] []
              [None; None; None; Some (PlainError "broken pipe")])
           ["Using environment"; "Task 42"] "Preparing deployment: started"
           ["Updating instance web"] (PlainError "broken pipe") []).
  - reflexivity.
  - reflexivity.
  - reflexivity.
  - intros t Ht. apply strings_Contains_false.
    repeat (apply elem_of_cons in Ht as [->|Ht]; [by vm_compute|]).
    by apply elem_of_nil in Ht.
  - apply strings_Contains_spec. by vm_compute.
  - reflexivity.
Defined.

Lemma detachedBoshCommand_not_started_witness :
  let c := boshcli.mkCLI
             (λ _ _ fs, mkProc (Some (PlainError "exec: not found")) [] fs
                          None) "bosh" in
  let w := fixtures.world0 ∅ in
  let run := boshcli.detachedBoshCommand c ["deploy"] in
  result run w = Some (PlainError "exec: not found") ∧
  w_sink (final run w) = w_sink w ∧
  w_fs (final run w) = w_fs w.
Proof.
  cbv zeta.
  apply (detachedBoshCommand_not_started
           (boshcli.mkCLI
              (λ _ _ fs, mkProc (Some (PlainError "exec: not found")) [] fs
                           None) "bosh")
           ["deploy"] (fixtures.world0 ∅) (PlainError "exec: not found")).
  right. split; reflexivity.
Defined.

(** ** The launch of a pass through [xEnv] *)

Section LaunchFacts.
Context {St : Type}.
Implicit Types (w : World St) (store : @boshcli.Store St).

Lemma writeToDisk_launch store key w path up err w1 l :
  boshcli.writeToDisk store key w = (path, up, err, w1, l) →
  (∀ mode argv, EvExec mode argv ∉ l) ∧
  (err = None → up = boshcli.upload store key path ∧ EvHydrated key path ∈ l).
Proof.
  intros H. apply writeToDisk_spec in H. destruct err; unpack;
    (split; [intros ? ?; set_solver|]); try done; intros _;
    (split; [done | set_solver]).
Qed.

Lemma writeTempFile_launch data w name err w1 l :
  boshcli.writeTempFile data w = (name, err, w1, l) →
  (∀ mode argv, EvExec mode argv ∉ l) ∧ (err = None → EvScratch name ∈ l).
Proof.
  intros H. apply writeTempFile_spec in H. destruct err; unpack;
    (split; [intros ? ?; set_solver|]); try done; intros _; set_solver.
Qed.

Lemma upload_launch store key path w r w1 l :
  boshcli.upload store key path w = (r, w1, l) →
  (∀ mode argv, EvExec mode argv ∉ l) ∧
  files (w_fs w1) = delete path (files (w_fs w)).
Proof.
  intros H. apply upload_spec in H as [-> ?]. split; [|done].
  intros ? ?. destruct (files (w_fs w) !! path); set_solver.
Qed.
End LaunchFacts.

Ltac run_spec_launch H :=
  lazymatch type of H with
  | boshcli.writeToDisk _ _ _ = _ => apply writeToDisk_launch in H
  | boshcli.writeTempFile _ _ = _ => apply writeTempFile_launch in H
  | boshcli.upload _ _ _ _ = _ => apply upload_launch in H
  | boshcli.command _ _ _ _ = _ => apply command_spec in H
  | boshcli.cmd_Run _ _ _ = _ => apply cmd_Run_spec in H
  | os_Remove _ _ = _ => apply os_Remove_spec in H
  end.

Ltac run_spec H ::= run_spec_launch H.

Section XEnvLaunch.
Context {St : Type}.
Implicit Types (w : World St) (c : boshcli.CLI).

(** A pass through [xEnv] launches the binary only after both state
    artifacts were hydrated and the manifest was written to a scratch
    file, in blocking mode, with the argument vector
    [<action> --state=<state path> --vars-store=<vars path> <manifest
    path>] made of those three paths. *)
Theorem xEnv_launch interp res c action (store : @boshcli.Store St) config
    password cert key ca tags w mode argv :
  let ev := events (boshcli.xEnv interp res c action store config password
                      cert key ca tags) w in
  EvExec mode argv ∈ ev →
  mode = Blocking ∧
  ∃ statePath varsPath manifestPath,
    EvHydrated "state.json" statePath ∈ ev ∧
    EvHydrated "vars.yaml" varsPath ∈ ev ∧
    EvScratch manifestPath ∈ ev ∧
    argv = [boshcli.boshPath c; action; "--state=" +:+ statePath;
            "--vars-store=" +:+ varsPath; manifestPath].
Proof.
  intros ev. subst ev. take_run. revert H.
  unfold boshcli.xEnv, boshcli.call_config in Hrun.
  repeat first
    [ run_step
    | match goal with
      | H : None = None → _ |- _ => specialize (H eq_refl)
      | H : Some _ = None → _ |- _ => clear H
      end ];
    intros Hin; rewrite !app_nil_r, ?app_nil_l in Hin |- *;
    repeat (apply elem_of_app in Hin as [Hin|Hin]);
    try (exfalso;
         first [ by apply elem_of_nil in Hin
               | match goal with
                 | H : ∀ mode argv, EvExec mode argv ∉ ?l, Hin : _ ∈ ?l |- _ =>
                     exact (H _ _ Hin)
                 end ]).
  apply list_elem_of_singleton in Hin. simplify_eq.
  split; [done|]. eexists _, _, _. split_and!; [| | |done]; set_solver.
Qed.
End XEnvLaunch.

(** ** What a pass through [xEnv] writes to the store, and when *)

Ltac run_spec H ::= run_spec_trace H.

Section XEnvStore.
Context {St : Type}.
Implicit Types (w : World St) (c : boshcli.CLI).

Lemma quiet_not_upload l e : quiet l → e ∈ l → is_upload e = false.
Proof. intros H Hin. specialize (H e Hin). by destruct e. Qed.

Lemma uploads_last_app l rest :
  (∀ e, e ∈ l → is_upload e = false) →
  uploads_last rest = true → uploads_last (l ++ rest) = true.
Proof.
  intros Hl Hrest. induction l as [|e l IH]; [done|]. simpl.
  rewrite (Hl e) by set_solver. apply IH. intros e' He'. apply Hl.
  set_solver.
Qed.

Lemma uploads_last_quiet l : quiet l → uploads_last l = true.
Proof.
  intros H. rewrite <- (app_nil_r l). apply uploads_last_app; [|done].
  intros e. by apply quiet_not_upload.
Qed.

Lemma uploads_last_uploads l :
  forallb is_upload l = true → uploads_last l = true.
Proof. destruct l as [|e l]; [done|]. simpl. by intros [-> ->]%andb_true_iff. Qed.

Lemma upload_events_uploads key path content :
  forallb is_upload (upload_events key path content) = true.
Proof. by destruct content. Qed.

Lemma upload_events_uploads2 key path content key' path' content' :
  forallb is_upload (upload_events key path content
                     ++ upload_events key' path' content') = true.
Proof. by destruct content, content'. Qed.

(** The store is written last.  In the trace of a pass through [xEnv],
    once a scratch file is read back or [Set] is called, only such reads
    and calls of [Set] follow: every [Get], every scratch file made and the
    launch of the binary come before the first upload. *)
Theorem xEnv_uploads_come_last interp res c action
    (store : @boshcli.Store St) config password cert key ca tags w :
  uploads_last (events (boshcli.xEnv interp res c action store config
                          password cert key ca tags) w) = true.
Proof.
  take_run. unfold boshcli.xEnv, boshcli.call_config in Hrun.
  runs; unpack; rewrite ?app_nil_r, ?app_nil_l, <- ?app_assoc;
    repeat first
      [ done
      | by apply uploads_last_quiet
      | apply uploads_last_uploads, upload_events_uploads
      | apply uploads_last_uploads, upload_events_uploads2
      | apply uploads_last_app;
        [ intros e0 He0;
          first [ eapply quiet_not_upload; [|exact He0]; assumption
                | set_unfold in He0; destruct_or?; by subst e0 ] |] ].
Qed.

(** A pass through [xEnv] calls [Set] only for an artifact that it
    hydrated, and only with what it read back from the path that it had
    handed out for that artifact. *)
Theorem xEnv_sets_only_what_it_read interp res c action
    (store : @boshcli.Store St) config password cert key ca tags w k v :
  let ev := events (boshcli.xEnv interp res c action store config password
                      cert key ca tags) w in
  EvSet k v ∈ ev →
  (k = "state.json" ∨ k = "vars.yaml") ∧
  ∃ path, EvHydrated k path ∈ ev ∧ EvReadFile path (Some v) ∈ ev.
Proof.
  intros ev. subst ev. take_run. revert H.
  unfold boshcli.xEnv, boshcli.call_config in Hrun.
  runs; unpack; unfold upload_events, boshcli.stateFilename,
    boshcli.varsFilename in *; intros Hin;
    rewrite ?app_nil_r, ?app_nil_l in Hin |- *;
    repeat (apply elem_of_app in Hin as [Hin|Hin]);
    try (exfalso; first [ by apply elem_of_nil in Hin
                        | by eauto using quiet_no_set
                        | by set_unfold in Hin ]);
    repeat match type of Hin with
           | context [match ?x with Some _ => _ | None => _ end] =>
               destruct x
           end;
    set_unfold in Hin; destruct_or?; simplify_eq;
    (split; [by auto|];
     match goal with
     | |- ∃ p, EvHydrated ?k p ∈ ?L ∧ _ =>
         match L with context [EvHydrated k ?q] => exists q end
     end; split; set_solver).
Qed.
End XEnvStore.

Ltac run_spec H ::= run_spec_run H.

(** ** What the binary is run on, and what comes back *)

Section ProcessFacts.
Context {St : Type}.
Implicit Types (w : World St) (c : boshcli.CLI).

Lemma command_result c mode args w cmd w1 l :
  boshcli.command c mode args w = (cmd, w1, l) →
  l = [EvExec mode (boshcli.boshPath c :: args)] ∧ w1 = w ∧
  cmd = mkCmd (boshcli.boshPath c :: args)
          (boshcli.execCmd c (boshcli.boshPath c) args).
Proof. unfold boshcli.command. intros H. by runs. Qed.

Lemma cmd_Run_result cmd out w b err w1 l :
  boshcli.cmd_Run cmd out w = (b, err, w1, l) →
  l = [] ∧
  match pr_start (cmd_proc cmd (w_fs w)) with
  | Some e => b = [] ∧ err = Some e ∧ w_fs w1 = w_fs w
  | None =>
      w_fs w1 = pr_fs (cmd_proc cmd (w_fs w)) ∧
      match out with
      | ToOsStdout => b = [] ∧ err = pr_exit (cmd_proc cmd (w_fs w))
      | ToBuffer =>
          b = boshcli.raw_output (pr_stdout (cmd_proc cmd (w_fs w))) ∧
          err = pr_exit (cmd_proc cmd (w_fs w))
      | ToWriter =>
          b = [] ∧
          ∀ e, pr_exit (cmd_proc cmd (w_fs w)) = Some e → err = Some e
      end
  end.
Proof.
  intros H. pose proof (cmd_Run_spec _ _ _ _ _ _ _ H) as ->.
  split; [done|]. revert H.
  unfold boshcli.cmd_Run, bind, get_fs, put_fs, gets, modify, ret,
    os_Stdout_Write. simpl.
  destruct (pr_start (cmd_proc cmd (w_fs w))) as [e|].
  - intros H. inversion H. by split_and!.
  - destruct out; simpl.
    + intros H. inversion H. by split_and!.
    + destruct (boshcli.raw_output _) as [|b0 data].
      * unfold ret. simpl. intros H. inversion H; subst.
        split_and!; try done. by intros e ->.
      * destruct (sink_Write (b0 :: data) _) as [[werr w'] l'] eqn:Hs.
        apply sink_Write_spec in Hs as [-> Hfs]. simpl.
        intros H. inversion H; subst. split_and!; try done.
        by intros e ->.
    + intros H. inversion H. by split_and!.
Qed.
End ProcessFacts.

Ltac run_spec_proc H :=
  lazymatch type of H with
  | boshcli.command _ _ _ _ = _ => apply command_result in H
  | boshcli.cmd_Run _ _ _ = _ => apply cmd_Run_result in H
  | _ => run_spec_files H
  end.

Ltac run_spec H ::= run_spec_proc H.

Section Outcomes.
Context {St : Type}.
Implicit Types (w : World St) (c : boshcli.CLI).

(** [Locks] returns no bytes whenever it returns an error.  When it
    returns none, the bytes are all that the binary printed, the binary
    having started and exited cleanly on a file system that is the one of
    the call plus one new file, the one named after [--ca-cert], which
    holds the CA certificate. *)
Theorem Locks_outcome c config ip password ca w :
  let r := result (boshcli.Locks c config ip password ca) w in
  match r.2 with
  | Some _ => r.1 = []
  | None =>
      ∃ caPath fs,
        fs_exists (w_fs w) caPath = false ∧
        files fs = <[caPath := bytes_of ca]> (files (w_fs w)) ∧
        dirs fs = dirs (w_fs w) ∧
        let proc :=
          boshcli.execCmd c (boshcli.boshPath c)
            ["--environment"; ip; "--ca-cert"; caPath; "--client"; "admin";
             "--client-secret"; password; "locks"; "--json"] fs in
        pr_start proc = None ∧ pr_exit proc = None ∧
        r.1 = boshcli.raw_output (pr_stdout proc)
  end.
Proof.
  intros r. subst r.
  pose proof (run_eta (boshcli.Locks c config ip password ca) w) as Hrun.
  destruct (result (boshcli.Locks c config ip password ca) w) as [out err].
  generalize dependent (events (boshcli.Locks c config ip password ca) w).
  generalize dependent (final (boshcli.Locks c config ip password ca) w).
  intros wf ev Hrun. simpl.
  unfold boshcli.Locks in Hrun.
  runs; simpl in *; try done.
  exists r, (w_fs w0).
  destruct (pr_start _) eqn:Hstart; destruct_and?; [done|].
  by split_and!.
Qed.
End Outcomes.

Ltac run_spec H ::= run_spec_run H.

(** ** Names of scratch locations *)

Section Names.
Lemma mentions_cons a s :
  mentions (String a s) "/" ↔ a = "/"%char ∨ mentions s "/".
Proof.
  rewrite <- !strings_Contains_spec.
  change (strings_Contains (String a s) "/")
    with (String.prefix "/" (String a s) || strings_Contains s "/").
  rewrite orb_true_iff, prefix_spec. split.
  - intros [[after H]|H]; [left | by right].
    rewrite append_cons in H. by simplify_eq.
  - intros [->|H]; [left | by right]. by exists s.
Qed.

Lemma mentions_nil : ¬ mentions "" "/".
Proof. rewrite <- strings_Contains_spec. by vm_compute. Qed.

Lemma pretty_N_char_no_slash x : pretty_N_char x ≠ "/"%char.
Proof. unfold pretty_N_char. by repeat case_match. Qed.

Lemma pretty_N_go_no_slash x s :
  ¬ mentions s "/" → ¬ mentions (pretty_N_go x s) "/".
Proof.
  revert s. induction (N.lt_wf_0 x) as [x _ IH]; intros s Hs.
  destruct (decide (0 < x)%N) as [Hx|Hx].
  - rewrite pretty_N_go_step by done. apply IH.
    + by apply N.div_lt.
    + rewrite mentions_cons. intros [H|H]; [|done].
      by apply pretty_N_char_no_slash in H.
  - assert (x = 0%N) as -> by lia. by rewrite pretty_N_go_0.
Qed.

Lemma pretty_nat_no_slash (n : nat) : ¬ mentions (pretty n) "/".
Proof.
  unfold pretty, pretty_nat, pretty, pretty_N.
  case_decide.
  - rewrite <- strings_Contains_spec. by vm_compute.
  - apply pretty_N_go_no_slash, mentions_nil.
Qed.

Lemma tmp_name_not_below n m key : tmp_name n ≠ tmp_name m +:+ "/" +:+ key.
Proof.
  unfold tmp_name. intros H.
  apply (pretty_nat_no_slash n). exists (pretty m), key.
  rewrite !append_cons, !append_nil_l in H. by simplify_eq.
Qed.

Lemma slash_split a b k1 k2 :
  ¬ mentions a "/" → ¬ mentions b "/" →
  a +:+ "/" +:+ k1 = b +:+ "/" +:+ k2 → a = b ∧ k1 = k2.
Proof.
  revert b. induction a as [|x a IH]; intros [|y b] Ha Hb H.
  - rewrite !append_nil_l, !append_cons, !append_nil_l in H.
    by simplify_eq.
  - rewrite append_nil_l, !append_cons in H. simplify_eq.
    destruct Hb. apply mentions_cons. by left.
  - rewrite append_nil_l, !append_cons in H. simplify_eq.
    destruct Ha. apply mentions_cons. by left.
  - rewrite !append_cons in H. simplify_eq.
    destruct (IH b) as [-> ->]; try done.
    + intros ?. apply Ha, mentions_cons. by right.
    + intros ?. apply Hb, mentions_cons. by right.
Qed.

Lemma tmp_name_below_inj n m k1 k2 :
  tmp_name n +:+ "/" +:+ k1 = tmp_name m +:+ "/" +:+ k2 → k1 = k2.
Proof.
  unfold tmp_name. rewrite !append_cons, !append_nil_l. intros H.
  simplify_eq.
  by destruct (slash_split _ _ _ _ (pretty_nat_no_slash n)
                 (pretty_nat_no_slash m) H).
Qed.
End Names.

(** ** A whole pass through [xEnv] *)

Section HydrationFacts.
Context {St : Type}.
Implicit Types (w : World St) (store : @boshcli.Store St).

Lemma ioutil_TempFile_name w name w1 l :
  ioutil_TempFile w = (name, None, w1, l) →
  (∃ n, name = tmp_name n) ∧ w_store w1 = w_store w.
Proof.
  unfold ioutil_TempFile, bind, os_fault, get_fs, gets, modify, with_fs,
    ret.
  destruct (w_faults w) as [|[e|] rest]; simpl;
    try (intros H; by inversion H);
    destruct (tmp_pick _ _ _) as [n|]; simpl; intros H; inversion H;
    subst; simpl; eauto.
Qed.

Lemma ioutil_TempDir_name w name w1 l :
  ioutil_TempDir w = (name, None, w1, l) →
  (∃ n, name = tmp_name n) ∧ w_store w1 = w_store w.
Proof.
  unfold ioutil_TempDir, bind, os_fault, get_fs, gets, modify, with_fs,
    emit, ret.
  destruct (w_faults w) as [|[e|] rest]; simpl;
    try (intros H; by inversion H);
    destruct (tmp_pick _ _ _) as [n|]; simpl; intros H; inversion H;
    subst; simpl; eauto.
Qed.

Lemma os_fault_store w f w1 l :
  os_fault w = (f, w1, l) → w_store w1 = w_store w.
Proof. unfold os_fault. destruct (w_faults w); intros H; by inversion H. Qed.

Lemma writeTempFile_name data w name w1 l :
  boshcli.writeTempFile data w = (name, None, w1, l) →
  (∃ n, name = tmp_name n) ∧ w_store w1 = w_store w.
Proof.
  unfold boshcli.writeTempFile. intros H.
  apply bind_inv in H as ([name0 err0] & w0 & l0 & l1 & Htmp & Hk & _).
  destruct err0 as [e|]; cbv beta iota in Hk; [by inversion Hk|].
  apply ioutil_TempFile_name in Htmp as [Hname Hst0].
  apply bind_inv in Hk as ([] & w2 & l2 & l3 & Hemit & Hk & _).
  unfold emit in Hemit. inversion Hemit; subst; clear Hemit.
  apply bind_inv in Hk as (werr & w3 & l4 & l5 & Hwrite & Hk & _).
  apply bind_inv in Hk as (cerr & w4 & l6 & l7 & Hclose & Hk & _).
  assert (w_store w3 = w_store w2) as Hst3.
  { revert Hwrite. unfold file_Write, bind, with_fs, modify, ret.
    destruct (os_fault w2) as [[f w'] l'] eqn:Hf.
    apply os_fault_store in Hf.
    destruct f; intros H; inversion H; subst; simpl; done. }
  apply os_fault_store in Hclose.
  destruct werr as [e|]; [|destruct cerr as [e|]]; cbv beta iota in Hk.
  - apply bind_inv in Hk as (? & ? & ? & ? & _ & Hk & _). by inversion Hk.
  - apply bind_inv in Hk as (? & ? & ? & ? & _ & Hk & _). by inversion Hk.
  - inversion Hk; subst. split; [done | congruence].
Qed.

Lemma writeTempFile_made data w name err w1 l :
  boshcli.writeTempFile data w = (name, err, w1, l) →
  (∀ mode argv, EvExec mode argv ∉ l) ∧
  (err = None →
   l = [EvScratch name] ∧ (∃ n, name = tmp_name n) ∧
   files (w_fs w) !! name = None ∧
   files (w_fs w1) = <[name := data]> (files (w_fs w)) ∧
   w_store w1 = w_store w).
Proof.
  intros H. split.
  - by apply writeTempFile_launch in H as [? _].
  - intros ->. pose proof H as H'.
    apply writeTempFile_name in H' as [Hn Hst].
    apply writeTempFile_spec in H as (-> & Hfresh & Hfiles & _).
    apply fs_exists_false in Hfresh as [? _]. by split_and!.
Qed.

Lemma writeToDisk_made store key w path up err w1 l :
  boshcli.writeToDisk store key w = (path, up, err, w1, l) →
  (∀ mode argv, EvExec mode argv ∉ l) ∧
  (err = None →
   up = boshcli.upload store key path ∧
   ∃ data n,
     (boshcli.StoreGet store key (w_store w)).1 = (data, None) ∧
     w_store w1 = (boshcli.StoreGet store key (w_store w)).2 ∧
     path = match data with
            | [] => tmp_name n +:+ "/" +:+ key
            | _ => tmp_name n
            end ∧
     (data ≠ [] → files (w_fs w) !! path = None) ∧
     files (w_fs w1) = with_artifact path data (files (w_fs w)) ∧
     ∀ k v, EvSet k v ∉ l).
Proof.
  intros H. split.
  { by apply writeToDisk_launch in H as [? _]. }
  intros ->. pose proof H as H'.
  apply writeToDisk_spec in H' as (-> & data & st & Hget & Hfs).
  split; [done|]. exists data. rewrite Hget. simpl.
  assert (∀ k v, EvSet k v ∉ l) as Hnoset.
  { intros k v. destruct data; unpack; set_solver. }
  unfold boshcli.writeToDisk in H.
  apply bind_inv in H as ([data0 gerr] & w0 & l0 & l1 & Hg & Hk & _).
  assert (data0 = data ∧ gerr = None ∧ w_store w0 = st) as (-> & -> & Hst0).
  { revert Hg. unfold boshcli.store_Get, bind, gets, modify, emit, ret.
    simpl. rewrite Hget. intros Hg. by inversion Hg. }
  cbv beta iota in Hk.
  apply bind_inv in Hk as ([p perr] & w2 & l2 & l3 & Hmk & Hk & _).
  destruct perr as [e|]; cbv beta iota in Hk; [by inversion Hk|].
  apply bind_inv in Hk as ([] & w3 & l4 & l5 & Hemit & Hk & _).
  unfold emit in Hemit. inversion Hemit; subst; clear Hemit.
  inversion Hk; subst; clear Hk.
  destruct data as [|b data].
  - apply bind_inv in Hmk as ([d derr] & w4 & l6 & l7 & Hdir & Hret & _).
    inversion Hret; subst; clear Hret.
    pose proof Hdir as Hdir'.
    apply ioutil_TempDir_name in Hdir' as [[n ->] Hst].
    exists n. destruct Hfs as (d & _ & _ & _ & Hfs).
    rewrite filepath_Join_nonempty by apply tmp_name_nonempty.
    split_and!; try done; try congruence; by rewrite Hfs.
  - apply writeTempFile_name in Hmk as [[n ->] Hst].
    exists n. destruct Hfs as (_ & Hfresh & Hfiles & _).
    apply fs_exists_false in Hfresh as [? _].
    split_and!; try done; congruence.
Qed.
End HydrationFacts.

Lemma artifact_paths_differ (m : gmap string bytes) sp vp
    (dataS dataV : bytes) n1 n2 :
  sp = match dataS with
       | [] => tmp_name n1 +:+ "/" +:+ "state.json"
       | _ => tmp_name n1
       end →
  vp = match dataV with
       | [] => tmp_name n2 +:+ "/" +:+ "vars.yaml"
       | _ => tmp_name n2
       end →
  (dataV ≠ [] → with_artifact sp dataS m !! vp = None) →
  sp ≠ vp.
Proof.
  intros -> -> Hfresh Heq. destruct dataS as [|b1 d1], dataV as [|b2 d2].
  - by apply tmp_name_below_inj in Heq.
  - symmetry in Heq. by apply tmp_name_not_below in Heq.
  - by apply tmp_name_not_below in Heq.
  - specialize (Hfresh ltac:(done)). rewrite <- Heq in Hfresh.
    unfold with_artifact in Hfresh. by rewrite lookup_insert_eq in Hfresh.
Qed.

Lemma manifest_path_differs (m : gmap string bytes) p (data : bytes) n key
    k :
  p = match data with
      | [] => tmp_name n +:+ "/" +:+ key
      | _ => tmp_name n
      end →
  (data ≠ [] → is_Some (m !! p)) →
  m !! tmp_name k = None →
  p ≠ tmp_name k.
Proof.
  intros -> Hthere Hfresh Heq. destruct data as [|b d].
  - symmetry in Heq. by apply tmp_name_not_below in Heq.
  - specialize (Hthere ltac:(done)). rewrite Heq, Hfresh in Hthere.
    by destruct Hthere.
Qed.

Ltac exec_absurd Hin :=
  first
    [ discriminate Hin
    | by apply elem_of_nil in Hin
    | match goal with
      | H : ∀ mode argv, EvExec mode argv ∉ ?l |- _ =>
          match type of Hin with _ ∈ l => exact (H _ _ Hin) end
      end
    | match type of Hin with
      | context [match ?x with Some _ => _ | None => _ end] => destruct x
      end;
      [ apply elem_of_cons in Hin as [Hin|Hin];
        [discriminate Hin | by apply elem_of_nil in Hin]
      | by apply elem_of_nil in Hin ] ].

Ltac run_spec_made H :=
  lazymatch type of H with
  | boshcli.writeToDisk _ _ _ = _ => apply writeToDisk_made in H
  | boshcli.writeTempFile _ _ = _ => apply writeTempFile_made in H
  | boshcli.upload _ _ _ _ = _ => apply upload_spec in H
  | boshcli.command _ _ _ _ = _ => apply command_result in H
  | boshcli.cmd_Run _ _ _ = _ => apply cmd_Run_result in H
  | os_Remove _ _ = _ => apply os_Remove_spec in H
  end.

Ltac run_spec H ::= run_spec_made H.

Section XEnvPass.
Context {St : Type}.
Implicit Types (w : World St) (c : boshcli.CLI).

(** A pass through [xEnv] that launches the binary, from end to end.  The
    manifest of the environment was interpolated and both artifacts were
    read from the store, [vars.yaml] after [state.json].  The binary is
    given three distinct paths and runs on the files of the caller plus
    the interpolated manifest at the manifest path and, for each artifact
    of which the store held bytes, those bytes at the path of the
    artifact.  The call returns what [cmd.Run] returns.  If the binary
    started, [Set] is called for [state.json] exactly with what it left at
    the state path, for [vars.yaml] exactly with what it left at the vars
    path, and for neither when it left no file there; afterwards the three
    paths hold no file and every other file is as the binary left it. *)
Theorem xEnv_round_trip interp res c action (store : @boshcli.Store St)
    config password cert key ca tags w mode argv :
  let run := boshcli.xEnv interp res c action store config password cert
               key ca tags in
  EvExec mode argv ∈ events run w →
  ∃ manifest0 manifest dataS dataV statePath varsPath manifestPath fs,
    boshcli.ConfigureDirectorManifestCPI config (w_fs w)
    = (manifest0, None) ∧
    interp manifest0 "" (boshcli.xEnv_vars res password cert key ca tags)
    = (manifest, None) ∧
    (boshcli.StoreGet store "state.json" (w_store w)).1 = (dataS, None) ∧
    (boshcli.StoreGet store "vars.yaml"
       (boshcli.StoreGet store "state.json" (w_store w)).2).1
    = (dataV, None) ∧
    argv = [boshcli.boshPath c; action; "--state=" +:+ statePath;
            "--vars-store=" +:+ varsPath; manifestPath] ∧
    statePath ≠ varsPath ∧ statePath ≠ manifestPath ∧
    varsPath ≠ manifestPath ∧
    files fs
    = <[manifestPath := bytes_of manifest]>
        (with_artifact varsPath dataV
           (with_artifact statePath dataS (files (w_fs w)))) ∧
    let proc := boshcli.execCmd c (boshcli.boshPath c)
                  [action; "--state=" +:+ statePath;
                   "--vars-store=" +:+ varsPath; manifestPath] fs in
    result run w = run_error proc ∧
    (pr_start proc = None →
     (∀ v, EvSet "state.json" v ∈ events run w
           ↔ files (pr_fs proc) !! statePath = Some v) ∧
     (∀ v, EvSet "vars.yaml" v ∈ events run w
           ↔ files (pr_fs proc) !! varsPath = Some v) ∧
     files (w_fs (final run w))
     = delete statePath
         (delete varsPath (delete manifestPath (files (pr_fs proc))))).
Proof.
  intros run. subst run. take_run. revert H.
  unfold boshcli.xEnv, boshcli.call_config in Hrun.
  repeat first
    [ run_step
    | match goal with
      | H : None = None → _ |- _ => specialize (H eq_refl)
      | H : Some _ = None → _ |- _ => clear H
      end ];
    intros Hin;
    repeat first [ apply elem_of_app in Hin as [Hin|Hin]
                 | apply elem_of_cons in Hin as [Hin|Hin] ];
    try (exfalso; exec_absurd Hin).
  match goal with
  | H : ∃ data n, (boshcli.StoreGet store boshcli.stateFilename _).1 = _ ∧ _
    |- _ => destruct H as (dataS & n1 & HgetS & HstS & Hsp & HfreshS
                           & HfilesS & HsetS)
  end.
  match goal with
  | H : ∃ data n, (boshcli.StoreGet store boshcli.varsFilename _).1 = _ ∧ _
    |- _ => destruct H as (dataV & n2 & HgetV & HstV & Hvp & HfreshV
                           & HfilesV & HsetV)
  end.
  match goal with
  | H : ∃ n, _ = tmp_name n |- _ => destruct H as [n3 Hmp]
  end.
  match goal with
  | H : files (w_fs ?w) !! _ = None, H' : files (w_fs _) = <[_:=_]> (files (w_fs ?w))
    |- _ => rename H into HfreshM; rename H' into HfilesM
  end.
  match goal with
  | H : match pr_start _ with Some _ => _ | None => _ end |- _ =>
      cbn [cmd_proc] in H; rename H into Hproc
  end.
  inversion Hin; subst mode argv; clear Hin.
  unfold boshcli.stateFilename, boshcli.varsFilename in *.
  rewrite HstS in HgetV.
  assert (r2 ≠ r4) as Hsv.
  { apply (artifact_paths_differ (files (w_fs w1)) r2 r4 dataS dataV n1 n2);
      try done. intros Hne. rewrite <- HfilesS. by apply HfreshV. }
  assert (r2 ≠ r0) as Hsm.
  { rewrite Hmp.
    apply (manifest_path_differs (files (w_fs w4)) r2 dataS n1 "state.json");
      [done | | by rewrite <- Hmp].
    intros Hne. rewrite HfilesV, HfilesS.
    destruct dataS as [|b1 d1]; [done|].
    destruct dataV as [|b2 d2]; simpl;
      rewrite ?lookup_insert_ne by done; rewrite lookup_insert_eq;
      by eexists. }
  assert (r4 ≠ r0) as Hvm.
  { rewrite Hmp.
    apply (manifest_path_differs (files (w_fs w4)) r4 dataV n2 "vars.yaml");
      [done | | by rewrite <- Hmp].
    intros Hne. rewrite HfilesV.
    destruct dataV as [|b2 d2]; [done|]. simpl. rewrite lookup_insert_eq.
    by eexists. }
  exists r, s, dataS, dataV, r2, r4, r0, (w_fs w6).
  split_and!; try done.
  { by rewrite HfilesM, HfilesV, HfilesS. }
  { unfold run_error. destruct (pr_start _); by destruct_and?. }
  intros Hstart. rewrite Hstart in Hproc. destruct Hproc as (Hfs7 & _ & _).
  match goal with
  | Hm : files (w_fs ?wm) = delete r0 (files (w_fs w7)),
    Hv : files (w_fs ?wv) = delete r4 (files (w_fs ?wm)),
    Hs : files (w_fs ?ws) = delete r2 (files (w_fs ?wv)) |- _ =>
      assert (files (w_fs wm) !! r4 = files (w_fs w7) !! r4) as Hatv
        by (by rewrite Hm, lookup_delete_ne);
      assert (files (w_fs wv) !! r2 = files (w_fs w7) !! r2) as Hats
        by (by rewrite Hv, Hm, !lookup_delete_ne);
      assert (files (w_fs ws)
              = delete r2 (delete r4 (delete r0 (files (w_fs w7)))))
        as Hend by (by rewrite Hs, Hv, Hm)
  end.
  rewrite Hatv, Hats, Hend, Hfs7. clear Hatv Hats Hend.
  split_and!; [| |done]; intros v; split.
  - intros Hset.
    repeat first [ apply elem_of_app in Hset as [Hset|Hset]
                 | apply elem_of_cons in Hset as [Hset|Hset] ];
      try (exfalso; first [ discriminate Hset
                          | by apply elem_of_nil in Hset
                          | exact (HsetS _ _ Hset)
                          | exact (HsetV _ _ Hset) ]);
      match type of Hset with
      | context [match ?x with Some _ => _ | None => _ end] =>
          destruct x as [v'|]
      end;
      try (by apply elem_of_nil in Hset);
      apply list_elem_of_singleton in Hset; by simplify_eq.
  - intros ->. clear. set_solver.
  - intros Hset.
    repeat first [ apply elem_of_app in Hset as [Hset|Hset]
                 | apply elem_of_cons in Hset as [Hset|Hset] ];
      try (exfalso; first [ discriminate Hset
                          | by apply elem_of_nil in Hset
                          | exact (HsetS _ _ Hset)
                          | exact (HsetV _ _ Hset) ]);
      match type of Hset with
      | context [match ?x with Some _ => _ | None => _ end] =>
          destruct x as [v'|]
      end;
      try (by apply elem_of_nil in Hset);
      apply list_elem_of_singleton in Hset; by simplify_eq.
  - intros ->. clear. set_solver.
Qed.
End XEnvPass.

Ltac run_spec H ::= run_spec_run H.

Ltac run_spec H ::= run_spec_made H.

Section CloudConfig.
Context {St : Type}.
Implicit Types (w : World St) (c : boshcli.CLI).

(** When [UpdateCloudConfig] launches the binary, the binary runs on the
    files of the caller plus two new files at distinct paths: the cloud
    config that the environment produced, named last in the argument
    vector, and the CA certificate, named after [--ca-cert].  The call
    returns what [cmd.Run] returns, and once the binary has run neither
    file is left. *)
Theorem UpdateCloudConfig_outcome c config ip password ca w mode argv :
  let run := boshcli.UpdateCloudConfig c config ip password ca in
  EvExec mode argv ∈ events run w →
  ∃ cloudConfig cloudConfigPath caPath fs,
    boshcli.ConfigureDirectorCloudConfig config (w_fs w)
    = (cloudConfig, None) ∧
    argv = boshcli.boshPath c
           :: authArgs ip password caPath
              ++ ["update-cloud-config"; cloudConfigPath] ∧
    cloudConfigPath ≠ caPath ∧
    files (w_fs w) !! cloudConfigPath = None ∧
    files (w_fs w) !! caPath = None ∧
    files fs
    = <[caPath := bytes_of ca]>
        (<[cloudConfigPath := bytes_of cloudConfig]> (files (w_fs w))) ∧
    let proc := boshcli.execCmd c (boshcli.boshPath c)
                  (authArgs ip password caPath
                   ++ ["update-cloud-config"; cloudConfigPath]) fs in
    result run w = run_error proc ∧
    (pr_start proc = None →
     files (w_fs (final run w))
     = delete cloudConfigPath (delete caPath (files (pr_fs proc)))).
Proof.
  intros run. subst run. take_run. revert H.
  unfold boshcli.UpdateCloudConfig, boshcli.call_config in Hrun.
  repeat first
    [ run_step
    | match goal with
      | H : None = None → _ |- _ => specialize (H eq_refl)
      | H : Some _ = None → _ |- _ => clear H
      end ];
    intros Hin;
    repeat first [ apply elem_of_app in Hin as [Hin|Hin]
                 | apply elem_of_cons in Hin as [Hin|Hin] ];
    try (exfalso; exec_absurd Hin).
  match goal with
  | H : match pr_start _ with Some _ => _ | None => _ end |- _ =>
      cbn [cmd_proc] in H; rename H into Hproc
  end.
  match goal with
  | Hcc : files (w_fs ?w2) = <[r0:=_]> (files (w_fs w1)),
    Hfresh : files (w_fs ?w2) !! r1 = None,
    Hca : files (w_fs ?w4) = <[r1:=_]> (files (w_fs ?w2)) |- _ =>
      rewrite Hcc in Hfresh; apply lookup_insert_None in Hfresh as [Hnone Hne];
      rewrite Hcc in Hca
  end.
  inversion Hin; subst mode argv; clear Hin.
  exists r, r0, r1, (w_fs w4). split_and!; try done.
  cbv zeta. unfold authArgs. cbn [app]. split.
  { unfold run_error. destruct (pr_start _); by destruct_and?. }
  intros Hstart. rewrite Hstart in Hproc. destruct Hproc as (Hfs5 & _ & _).
  match goal with
  | Hm : files (w_fs ?wm) = delete r1 (files (w_fs w5)),
    Hs : files (w_fs ?ws) = delete r0 (files (w_fs ?wm)) |- _ =>
      rewrite Hs, Hm, Hfs5
  end.
  done.
Qed.

(** With the GCP environment as the configuration, a pass through [xEnv]
    whose credentials file cannot be read fails with the error of the
    read before anything else happens: nothing is interpolated, the store
    is not asked, no scratch file is made and the binary is not
    launched. *)
Theorem xEnv_gcp_missing_credentials interp res c action
    (store : @boshcli.Store St) manifest cpi externalIP custom jumpbox
    template interpolate render versions unmarshalOps unmarshalString e
    password cert key ca tags w :
  let config := gcp.asIAASEnvironment manifest cpi externalIP custom jumpbox
                  template interpolate render versions unmarshalOps
                  unmarshalString e in
  files (w_fs w) !! gcp.GcpCredentialsJSON e = None →
  boshcli.xEnv interp res c action store config password cert key ca tags w
  = (Some ErrNotExist, w, []).
Proof.
  intros config Hnone. subst config.
  unfold boshcli.xEnv, boshcli.call_config, bind, get_fs, gets, ret,
    gcp.asIAASEnvironment. simpl.
  unfold gcp.ConfigureDirectorManifestCPI. by rewrite Hnone.
Qed.
End CloudConfig.

Lemma UpdateCloudConfig_outcome_witness :
  let run := boshcli.UpdateCloudConfig fixtures.failingCLI fixtures.config
               "10.0.0.6" "secret" "ca" in
  let w := fixtures.world0 ∅ in
  EvExec Blocking
    ("bosh" :: authArgs "10.0.0.6" "secret" "/tmp/1"
               ++ ["update-cloud-config"; "/tmp/0"]) ∈ events run w ∧
  result run w = Some (PlainError "exit status 1").
Proof.
  cbv zeta.
  assert (EvExec Blocking
            ("bosh" :: authArgs "10.0.0.6" "secret" "/tmp/1"
                       ++ ["update-cloud-config"; "/tmp/0"])
          ∈ events (boshcli.UpdateCloudConfig fixtures.failingCLI
                      fixtures.config "10.0.0.6" "secret" "ca")
              (fixtures.world0 ∅)) as Hin by in_trace.
  split; [exact Hin|].
  destruct (UpdateCloudConfig_outcome _ _ _ _ _ _ _ _ Hin)
    as (cc & ccPath & caPath & fs & _ & _ & _ & _ & _ & _ & Hres & _).
  exact Hres.
Defined.

Lemma xEnv_gcp_missing_credentials_witness :
  let config := gcp.asIAASEnvironment "manifest" "a" "b" "c" "d" "template"
                  fixtures.interpolate (λ _ _ _, (None, None)) "[...]"
                  (fixtures.decodeOps fixtures.versionOps)
                  fixtures.decodeString fixtures.gcpEnvironment in
  let w := fixtures.world0 ∅ in
  boshcli.CreateEnv fixtures.interpolate fixtures.releases
    fixtures.failingCLI fixtures.memStore config "secret" "cert" "key" "ca"
    ∅ w
  = (Some ErrNotExist, w, []).
Proof.
  cbv zeta.
  apply (xEnv_gcp_missing_credentials fixtures.interpolate fixtures.releases
           fixtures.failingCLI "create-env" fixtures.memStore).
  reflexivity.
Defined.

Lemma xEnv_launch_witness :
  let run := boshcli.CreateEnv fixtures.interpolate fixtures.releases
               fixtures.failingCLI fixtures.memStore fixtures.config
               "secret" "cert" "key" "ca" ∅ in
  let w := fixtures.world0 (<["state.json" := bytes_of "{}"]> ∅) in
  EvExec Blocking
    ["bosh"; "create-env"; "--state=/tmp/0";
     "--vars-store=/tmp/1/vars.yaml"; "/tmp/2"] ∈ events run w ∧
  ∃ statePath varsPath manifestPath,
    EvHydrated "state.json" statePath ∈ events run w ∧
    EvHydrated "vars.yaml" varsPath ∈ events run w ∧
    EvScratch manifestPath ∈ events run w.
Proof.
  cbv zeta.
  assert (EvExec Blocking
            ["bosh"; "create-env"; "--state=/tmp/0";
             "--vars-store=/tmp/1/vars.yaml"; "/tmp/2"]
          ∈ events (boshcli.CreateEnv fixtures.interpolate fixtures.releases
                      fixtures.failingCLI fixtures.memStore fixtures.config
                      "secret" "cert" "key" "ca" ∅)
              (fixtures.world0 (<["state.json" := bytes_of "{}"]> ∅)))
    as Hin by in_trace.
  split; [exact Hin|].
  unfold boshcli.CreateEnv in Hin |- *.
  destruct (xEnv_launch _ _ _ _ _ _ _ _ _ _ _ _ _ _ Hin)
    as (_ & sp & vp & mp & H1 & H2 & H3 & _).
  by exists sp, vp, mp.
Defined.

Lemma xEnv_sets_only_what_it_read_witness :
  let run := boshcli.DeleteEnv fixtures.interpolate fixtures.releases
               fixtures.failingCLI fixtures.memStore fixtures.config
               "secret" "cert" "key" "ca" ∅ in
  let w := fixtures.world0 (<["state.json" := bytes_of "{}"]> ∅) in
  EvSet "state.json" (bytes_of "{}") ∈ events run w ∧
  ∃ path, EvHydrated "state.json" path ∈ events run w ∧
          EvReadFile path (Some (bytes_of "{}")) ∈ events run w.
Proof.
  cbv zeta.
  assert (EvSet "state.json" (bytes_of "{}")
          ∈ events (boshcli.DeleteEnv fixtures.interpolate fixtures.releases
                      fixtures.failingCLI fixtures.memStore fixtures.config
                      "secret" "cert" "key" "ca" ∅)
              (fixtures.world0 (<["state.json" := bytes_of "{}"]> ∅)))
    as Hin by in_trace.
  split; [exact Hin|].
  unfold boshcli.DeleteEnv in Hin |- *.
  by destruct (xEnv_sets_only_what_it_read _ _ _ _ _ _ _ _ _ _ _ _ _ _ Hin)
    as [_ ?].
Defined.

Lemma xEnv_round_trip_witness :
  let c := boshcli.mkCLI
             (λ _ _ fs, mkProc None []
                          (mkFS (<["/tmp/0" := bytes_of "new"]> (files fs))
                                (dirs fs)) None) "bosh" in
  let run := boshcli.CreateEnv fixtures.interpolate fixtures.releases c
               fixtures.memStore fixtures.config "secret" "cert" "key" "ca"
               ∅ in
  let w := fixtures.world0 (<["state.json" := bytes_of "old"]> ∅) in
  EvExec Blocking
    ["bosh"; "create-env"; "--state=/tmp/0";
     "--vars-store=/tmp/1/vars.yaml"; "/tmp/2"] ∈ events run w ∧
  result run w = None.
Proof.
  cbv zeta.
  set (c := boshcli.mkCLI
              (λ _ _ fs, mkProc None []
                           (mkFS (<["/tmp/0" := bytes_of "new"]> (files fs))
                                 (dirs fs)) None) "bosh").
  assert (EvExec Blocking
            ["bosh"; "create-env"; "--state=/tmp/0";
             "--vars-store=/tmp/1/vars.yaml"; "/tmp/2"]
          ∈ events (boshcli.CreateEnv fixtures.interpolate fixtures.releases
                      c fixtures.memStore fixtures.config "secret" "cert"
                      "key" "ca" ∅)
              (fixtures.world0 (<["state.json" := bytes_of "old"]> ∅)))
    as Hin by in_trace.
  split; [exact Hin|].
  unfold boshcli.CreateEnv in Hin |- *.
  destruct (xEnv_round_trip _ _ _ _ _ _ _ _ _ _ _ _ _ _ Hin)
    as (m0 & m & dS & dV & sp & vp & mp & fs & _ & _ & _ & _ & _ & _ & _
        & _ & _ & Hres & _).
  exact Hres.
Defined.

Ltac run_spec H ::= run_spec_run H.
